(** * World Bank GDP-per-capita dashboard (app.py)

    A shallow embedding of the data pipeline of [app.py]: the cleaning
    routine [process_world_bank_data], the loader [load_data], the
    country/start-year filter, the per-country growth table and the
    single-year map snapshot, followed by the properties proved about
    them.

    Conventions.
    - A pandas [DataFrame] is the list of its rows in positional order;
      index labels are not represented.  [pd.DataFrame()] is the empty
      list.
    - A float64 cell is a [spec_float] of the Standard Library at
      precision 53 and maximal exponent 1024 (binary64); the null marker
      of a float column is [S754_nan].
    - A Python [str] is the [string] of its UTF-8 bytes; the byte order
      of two such strings is the order of their code points, by which
      Python compares.
    - A raised Python exception is the [Raised] case of [outcome].
    - A record of the reply is read by the four keys the program
      reads, with the values the World Bank sends under them and the
      values that make the program raise: the country is an object with
      a string, [null] or nothing under ["value"], or [null], or any
      value that is not an object; the code and the date are strings or
      [null]; the value is a float, a string or [null].
    - What the interpreter and pandas make of some texts and columns
      depends on tables and code outside the source.  The file computes
      what it can decide and takes the rest from the parameter
      [readers]; all statements hold for every value of it. *)

From Stdlib Require Import ZArith List String Ascii Bool Lia.
From Stdlib Require Import RelationClasses Sorted Permutation OrdersEx.
From Stdlib Require Import SpecFloat DecimalString.
Import ListNotations.
Local Open Scope Z_scope.

(** ** binary64 arithmetic *)

Module Float64.

Definition prec : Z := 53.
Definition emax : Z := 1024.

Definition div : spec_float -> spec_float -> spec_float := SFdiv prec emax.
Definition sub : spec_float -> spec_float -> spec_float := SFsub prec emax.
Definition mul : spec_float -> spec_float -> spec_float := SFmul prec emax.

(** The binary64 nearest to an integer (ties to even). *)
Definition of_Z (z : Z) : spec_float := binary_normalize prec emax z 0 false.

Definition isna (x : spec_float) : bool :=
  match x with S754_nan => true | _ => false end.

Definition is_zero (x : spec_float) : bool :=
  match x with S754_zero _ => true | _ => false end.

Definition is_inf (x : spec_float) : bool :=
  match x with S754_infinity _ => true | _ => false end.

Definition is_finite (x : spec_float) : bool :=
  match x with S754_zero _ | S754_finite _ _ _ => true | _ => false end.

(** The binary64 nearest to [(-1)^neg * m * 10^e] (ties to even): a
    non-negative power of ten is multiplied in exactly before the one
    rounding, a negative one is divided out by the one rounding
    division. *)
Definition of_decimal (neg : bool) (m : Z) (e : Z) : spec_float :=
  match m with
  | Zpos p =>
      if 0 <=? e
      then binary_normalize prec emax
             (cond_Zopp neg (Zpos p * 10 ^ e)) 0 neg
      else match 10 ^ (- e) with
           | Zpos d => div (S754_finite neg p 0) (S754_finite false d 0)
           | _ => S754_nan
           end
  | _ => S754_zero neg
  end.

End Float64.

(** ** Python text conversions *)

Module Py.

(** White space for [int] on ASCII text: tab to carriage return, and
    the space. *)
Definition is_space (c : ascii) : bool :=
  let n := N_of_ascii c in
  (((9 <=? n) && (n <=? 13)) || (n =? 32))%N.

Fixpoint lstrip (s : list ascii) : list ascii :=
  match s with
  | c :: s' => if is_space c then lstrip s' else s
  | [] => []
  end.

Definition strip (s : list ascii) : list ascii :=
  rev (lstrip (rev (lstrip s))).

Definition digit (c : ascii) : option Z :=
  let n := N_of_ascii c in
  if ((48 <=? n) && (n <=? 57))%N then Some (Z.of_N n - 48) else None.

Definition lower (c : ascii) : ascii :=
  let n := N_of_ascii c in
  if ((65 <=? n) && (n <=? 90))%N then ascii_of_N (n + 32) else c.

(** An optional sign; [true] is minus. *)
Definition sign (s : list ascii) : bool * list ascii :=
  match s with
  | "-"%char :: s' => (true, s')
  | "+"%char :: s' => (false, s')
  | _ => (false, s)
  end.

(** Decimal digits in which single underscores may separate digits. *)
Fixpoint int_digits (acc : Z) (after_digit : bool) (s : list ascii)
  : option Z :=
  match s with
  | [] => if after_digit then Some acc else None
  | c :: s' =>
      match digit c with
      | Some d => int_digits (10 * acc + d) true s'
      | None =>
          if Ascii.eqb c "_" && after_digit
          then int_digits acc false s'
          else None
      end
  end.

(** [int(text)] in base 10 on ASCII text: white space around, an
    optional sign, then the digits.  [None] stands for the [ValueError]
    of a text that is not an integer literal. *)
Definition ascii_int (text : string) : option Z :=
  let (neg, ds) := sign (strip (list_ascii_of_string text)) in
  match int_digits 0 false ds with
  | Some n => Some (if neg then - n else n)
  | None => None
  end.

Definition is_ascii (text : string) : bool :=
  forallb (fun c => (N_of_ascii c <? 128)%N) (list_ascii_of_string text).

(** The default limit of the interpreter on the digits of a text that
    [int] converts. *)
Definition max_str_digits : nat := 4300.

(** [int(text)].  A text with a character beyond ASCII is first
    rewritten by the interpreter with its Unicode tables, and a text
    with more digits than the limit is refused by interpreters that have
    the limit: the reading of a text beyond ASCII or longer than the
    limit is [other]. *)
Definition int (other : string -> option Z) (text : string) : option Z :=
  if is_ascii text && (String.length text <=? max_str_digits)%nat
  then ascii_int text
  else other text.

(** What the number reader behind [pd.to_numeric] makes of a text: no
    number, an integer literal with its integer and its float, or a
    float. *)
Inductive reading : Type :=
  | NotNumber
  | IntLit (z : Z) (f : spec_float)
  | FloatLit (f : spec_float).

(** A maximal run of digits: its value on top of [acc], its length,
    and the rest of the text. *)
Fixpoint digit_run (acc : Z) (len : Z) (s : list ascii)
  : Z * Z * list ascii :=
  match s with
  | c :: s' =>
      match digit c with
      | Some d => digit_run (10 * acc + d) (len + 1) s'
      | None => (acc, len, s)
      end
  | [] => (acc, len, [])
  end.

(** A plain decimal: an optional sign and up to fifteen digits, with at
    most one point among them and nothing else.  Its digits are an
    integer that binary64 holds exactly, which the reader divides by the
    power of ten of the fraction in one rounding; without a point it is
    an integer literal. *)
Definition plain_decimal (s : list ascii) : option reading :=
  let (neg, body) := sign s in
  let '(ip, ilen, s1) := digit_run 0 0 body in
  match s1 with
  | [] =>
      if (0 <? ilen) && (ilen <=? 15)
      then Some (IntLit (if neg then - ip else ip)
                        (Float64.of_decimal neg ip 0))
      else None
  | "."%char :: s1' =>
      match digit_run ip 0 s1' with
      | (m, flen, []) =>
          if (0 <? ilen + flen) && (ilen + flen <=? 15)
          then Some (FloatLit (Float64.of_decimal neg m (- flen)))
          else None
      | _ => None
      end
  | _ => None
  end.

(** The letters inf in a row, in either case. *)
Fixpoint has_inf (s : list ascii) : bool :=
  match s with
  | [] => false
  | c1 :: s' =>
      match s' with
      | c2 :: c3 :: _ =>
          (Ascii.eqb (lower c1) "i" && Ascii.eqb (lower c2) "n"
           && Ascii.eqb (lower c3) "f")
          || has_inf s'
      | _ => false
      end
  end.

(** A text without a digit is no number, the words for infinity apart:
    here, a text without a digit, without a NUL character and without
    the letters inf in a row. *)
Definition no_number (s : list ascii) : bool :=
  forallb (fun c => match digit c with Some _ => false | None => true end) s
  && forallb (fun c => negb (N_of_ascii c =? 0)%N) s
  && negb (has_inf s).

(** The reading of a text.  The file computes it for plain decimals and
    for texts that are no number by [no_number]; the reading of every
    other text (white space, exponents, long digit strings, the words
    for infinity) is [other]. *)
Definition read (other : string -> reading) (text : string) : reading :=
  let s := list_ascii_of_string text in
  match plain_decimal s with
  | Some r => r
  | None => if no_number s then NotNumber else other text
  end.

(** The float a numeric text denotes; [None] when the text is not
    numeric. *)
Definition to_float (other : string -> reading) (text : string)
  : option spec_float :=
  match read other text with
  | NotNumber => None
  | IntLit _ f => Some f
  | FloatLit f => Some f
  end.

End Py.

(** ** Outcomes of Python code *)

(** The exceptions the cleaning routine can raise.  [CastError] stands
    for the [ValueError], [TypeError] or [OverflowError] with which
    [astype(int)] rejects a cell. *)
Inductive exn : Type :=
  | KeyError (key : string)
  | AttributeError
  | ValueError
  | CastError.

Inductive outcome (A : Type) : Type :=
  | Returned (a : A)
  | Raised (e : exn).

Arguments Returned {A} a.
Arguments Raised {A} e.

Definition bind {A B : Type} (c : outcome A) (k : A -> outcome B)
  : outcome B :=
  match c with
  | Returned a => k a
  | Raised e => Raised e
  end.

Notation "x <- c ;; k" := (bind c (fun x => k))
  (at level 61, c at next level, right associativity).

(** ** The JSON a response decodes to *)

(** A member of a JSON object: the key is missing, its value is [null],
    or it carries a value. *)
Inductive field (A : Type) : Type :=
  | Absent
  | Null
  | Present (a : A).

Arguments Absent {A}.
Arguments Null {A}.
Arguments Present {A} a.

Inductive scalar : Type :=
  | SNull
  | SBool (b : bool)
  | SNumber (x : spec_float)
  | SString (s : string).

(** The nested country object [{"id": ..., "value": ...}]; only its
    ["value"] member is read, here a string, [null] or missing. *)
Record country_object : Type := { country_value : field string }.

(** The value under the country key: an object; a number, which is a
    float or an integer in the range of int64; or any other value (a
    string, a boolean, an array, an integer out of that range).  What is
    not an object comes with whether Python takes it for true: a number
    other than zero, a string or array that is not empty, [true]. *)
Inductive country_cell : Type :=
  | CObject (c : country_object)
  | CNumber (truthy : bool)
  | COther (truthy : bool).

(** The indicator value: a JSON number that decodes to a float, or a
    string. *)
Inductive number_or_text : Type :=
  | Number (x : spec_float)
  | Text (s : string).

(** One record of the second envelope element, by the four keys the
    program reads. *)
Record raw_record : Type := {
  country : field country_cell;
  countryiso3code : field string;
  date : field string;
  value : field number_or_text
}.

(** A scalar or an object of scalars, such as the page metadata. *)
Inductive plain : Type :=
  | Scalar (v : scalar)
  | Object (members : list (string * scalar)).

Inductive element : Type :=
  | Plain (p : plain)
  | Records (rs : list raw_record).

Inductive json : Type :=
  | NotList (p : plain)
  | JList (l : list element).

(** ** What the file does not compute *)

(** The reading of the texts that [Py.int] and [Py.read] leave open,
    and whether pandas stores [None] as NaN in a column that holds
    values other than objects and numbers. *)
Record readers : Type := {
  int_other : string -> option Z;
  number_other : string -> Py.reading;
  none_as_nan : list (field country_cell) -> bool
}.

(** Readers that find no number in the texts left to them and keep
    [None].  The sample runs below do not depend on them. *)
Definition plain_readers : readers :=
  {| int_other := fun _ => None;
     number_other := fun _ => Py.NotNumber;
     none_as_nan := fun _ => false |}.

(** ** Data frames *)

(** A row of the cleaned frame.  [None] is the null marker of an object
    column, [S754_nan] that of the float column. *)
Record IndicatorRecord : Type := {
  CountryName : option string;
  CountryCode : option string;
  Year : Z;
  Value : spec_float
}.

Definition DataFrame : Type := list IndicatorRecord.

(** [pd.DataFrame(data)] on one envelope element: the frame of raw
    records, which has a column for every key that some record
    carries. *)
Definition pd_DataFrame (data : element) : outcome (list raw_record) :=
  match data with
  | Records rs => Returned rs
  | Plain (Scalar SNull) => Returned []
  | Plain (Object []) => Returned []
  | Plain (Scalar _) => Raised ValueError
  | Plain (Object (_ :: _)) => Raised ValueError
  end.

Definition carries {A : Type} (x : field A) : bool :=
  match x with Absent => false | _ => true end.

(** [df_raw[key]]: the column, with [Absent] where a record lacks the
    key (pandas fills in NaN), or [KeyError] when no record has it. *)
Definition getitem {A : Type} (df_raw : list raw_record) (key : string)
  (col : raw_record -> field A) : outcome (list (field A)) :=
  if existsb (fun r => carries (col r)) df_raw
  then Returned (map col df_raw)
  else Raised (KeyError key).

(** [Series.apply] and [Series.astype]: cell by cell, the first
    exception ends the call. *)
Fixpoint apply {A B : Type} (f : A -> outcome B) (s : list A)
  : outcome (list B) :=
  match s with
  | [] => Returned []
  | x :: s' => y <- f x ;; ys <- apply f s' ;; Returned (y :: ys)
  end.

Definition is_number (x : field country_cell) : bool :=
  match x with Present (CNumber _) => true | _ => false end.

Definition is_object (x : field country_cell) : bool :=
  match x with Present (CObject _) => true | _ => false end.

Definition is_other (x : field country_cell) : bool :=
  match x with Present (COther _) => true | _ => false end.

(** Whether the column is stored with a dtype in which [None] is NaN.
    A column with an object in it keeps its cells, and so does a column
    without any value; a column of numbers, with or without gaps, has a
    float dtype; for a column of other values without an object the
    answer is [none_as_nan]. *)
Definition numeric_column (py : readers) (col : list (field country_cell))
  : bool :=
  if existsb is_object col then false
  else if existsb is_other col then none_as_nan py col
  else existsb is_number col.

(** [lambda x: x.get('value') if x else None] on a cell of a column that
    is [numeric] or not.  The NaN of a missing key, or of [None] in a
    numeric column, is truthy and has no [get], and so is every truthy
    value that is not an object; [None], the empty object and the other
    falsy values give [None]; a missing or null ["value"] member reads
    as [None]. *)
Definition get_value (numeric : bool) (x : field country_cell)
  : outcome (option string) :=
  match x with
  | Absent => Raised AttributeError
  | Null => if numeric then Raised AttributeError else Returned None
  | Present (CObject c) =>
      Returned (match country_value c with Present s => Some s | _ => None end)
  | Present (CNumber truthy) | Present (COther truthy) =>
      if truthy then Raised AttributeError else Returned None
  end.

Definition int64_min : Z := - 2 ^ 63.
Definition int64_max : Z := 2 ^ 63 - 1.
Definition uint64_max : Z := 2 ^ 64 - 1.

(** One cell of [astype(int)]. *)
Definition to_int (py : readers) (x : field string) : outcome Z :=
  match x with
  | Present s =>
      match Py.int (int_other py) s with
      | Some z =>
          if (int64_min <=? z) && (z <=? int64_max)
          then Returned z else Raised CastError
      | None => Raised CastError
      end
  | _ => Raised CastError
  end.

(** What [pd.to_numeric(..., errors='coerce')] reads in one cell: a
    float is kept, a text is read, anything else is no number. *)
Definition cell_reading (py : readers) (x : field number_or_text)
  : Py.reading :=
  match x with
  | Present (Number f) => Py.FloatLit f
  | Present (Text s) => Py.read (number_other py) s
  | _ => Py.NotNumber
  end.

Definition int_of_reading (r : Py.reading) : option Z :=
  match r with Py.IntLit z _ => Some z | _ => None end.

(** The column comes out with an integer dtype when every cell is an
    integer literal within the 64-bit range, signed or unsigned, and
    not both a negative one and one above the signed range. *)
Definition int_column (rs : list Py.reading) : bool :=
  forallb (fun r => match int_of_reading r with
                    | Some z => (int64_min <=? z) && (z <=? uint64_max)
                    | None => false
                    end) rs
  && negb (existsb (fun r => match int_of_reading r with
                             | Some z => z <? 0
                             | None => false
                             end) rs
           && existsb (fun r => match int_of_reading r with
                                | Some z => int64_max <? z
                                | None => false
                                end) rs).

(** The binary64 value of a cell of the column: that of its integer in
    an integer column, else the float read, with NaN for no number. *)
Definition value_view (ints : bool) (r : Py.reading) : spec_float :=
  match r with
  | Py.NotNumber => S754_nan
  | Py.IntLit z f => if ints then Float64.of_Z z else f
  | Py.FloatLit f => f
  end.

(** [pd.to_numeric(col, errors='coerce')], by the binary64 values of
    its cells. *)
Definition to_numeric (py : readers) (col : list (field number_or_text))
  : list spec_float :=
  let rs := map (cell_reading py) col in
  map (value_view (int_column rs)) rs.

Definition code_cell (x : field string) : option string :=
  match x with Present s => Some s | _ => None end.

(** The frame built from four columns on one index.  In the code
    column a missing key and [null] are both null cells. *)
Fixpoint frame (names : list (option string)) (codes : list (field string))
  (years : list Z) (values : list spec_float) : DataFrame :=
  match names, codes, years, values with
  | n :: names', c :: codes', y :: years', v :: values' =>
      {| CountryName := n; CountryCode := code_cell c;
         Year := y; Value := v |}
      :: frame names' codes' years' values'
  | _, _, _, _ => []
  end.

Definition notna_name (n : option string) : bool :=
  match n with Some _ => true | None => false end.

(** [dropna(subset=['Value', 'CountryName'])]. *)
Definition dropna (df : DataFrame) : DataFrame :=
  filter (fun r => negb (Float64.isna (Value r)) && notna_name (CountryName r))
         df.

(** Order of the sort key.  Nulls sort last. *)
Definition name_compare (a b : option string) : comparison :=
  match a, b with
  | Some x, Some y => String_as_OT.compare x y
  | Some _, None => Lt
  | None, Some _ => Gt
  | None, None => Eq
  end.

Definition key_leb (r1 r2 : IndicatorRecord) : bool :=
  match name_compare (CountryName r1) (CountryName r2) with
  | Lt => true
  | Eq => Year r1 <=? Year r2
  | Gt => false
  end.

Fixpoint insert_row (r : IndicatorRecord) (df : DataFrame) : DataFrame :=
  match df with
  | [] => [r]
  | r' :: df' => if key_leb r r' then r :: df else r' :: insert_row r df'
  end.

(** [sort_values(by=['CountryName', 'Year'])]: the stable sort by the
    pair of keys. *)
Definition sort_values (df : DataFrame) : DataFrame :=
  fold_right insert_row [] df.

(** ** Cleaning *)

(** The guard lets through a list of two elements or more, of which the
    one at index 1 is read; the four columns of the new frame are
    evaluated in the order in which the source lists them. *)
Definition process_world_bank_data (py : readers) (raw_data : json)
  : outcome DataFrame :=
  match raw_data with
  | JList (_ :: second :: _) =>
      df_raw <- pd_DataFrame second ;;
      country_col <- getitem df_raw "country" country ;;
      names <- apply (get_value (numeric_column py country_col))
                     country_col ;;
      codes <- getitem df_raw "countryiso3code" countryiso3code ;;
      date_col <- getitem df_raw "date" date ;;
      years <- apply (to_int py) date_col ;;
      value_col <- getitem df_raw "value" value ;;
      let values := to_numeric py value_col in
      let df_clean := dropna (frame names codes years values) in
      Returned (sort_values df_clean)
  | _ => Returned []
  end.

(** ** Loading *)

(** What [requests.get(url, timeout=15)] comes back with: a
    [RequestException] (time-out, DNS failure, reset connection), or a
    response with its status code and its body, which [response.json()]
    decodes or rejects with [requests.exceptions.JSONDecodeError], itself
    a [RequestException]. *)
Inductive response_body : Type :=
  | Json (data : json)
  | NotJson (e : string).

Inductive get_result : Type :=
  | RequestException (e : string)
  | Response (status_code : Z) (body : response_body).

(** A call of [st.error]. *)
Inductive notice : Type :=
  | st_error (msg : string).

Definition str (z : Z) : string := NilZero.string_of_int (Z.to_int z).

(** The body of [load_data], on the result of its GET: what it returns
    or raises, and the notices it emits.  The cache decorator runs this
    body once per URL and expiry window and replays its result. *)
Definition load_data (py : readers) (got : get_result)
  : outcome DataFrame * list notice :=
  match got with
  | Response status_code body =>
      if status_code =? 200 then
        match body with
        | Json data => (process_world_bank_data py data, [])
        | NotJson e =>
            (Returned [], [st_error ("Error de conexión: " ++ e)%string])
        end
      else
        (Returned [],
         [st_error ("Error al conectar con la API: Código "
                    ++ str status_code)%string])
  | RequestException e =>
      (Returned [], [st_error ("Error de conexión: " ++ e)%string])
  end.

(** ** Derived views *)

(** [Series.isin(selected_countries)]. *)
Definition isin (n : option string) (selected_countries : list string)
  : bool :=
  match n with
  | Some s => existsb (String.eqb s) selected_countries
  | None => false
  end.

Definition filtered_df (data_df : DataFrame)
  (selected_countries : list string) (start_year : Z) : DataFrame :=
  filter (fun r => isin (CountryName r) selected_countries
                   && (start_year <=? Year r))
         data_df.

Definition df_map (data_df : DataFrame) (map_year : Z) : DataFrame :=
  filter (fun r => Year r =? map_year) data_df.

Module Growth.

(** A row of [growth_df]. *)
Record row : Type := {
  CountryName : string;
  Final_Value : spec_float;
  Initial_Value : spec_float;
  Total_Growth : spec_float
}.

End Growth.

(** The group keys of [groupby('CountryName')]: the distinct non-null
    names in ascending order. *)
Fixpoint insert_key (k : string) (ks : list string) : list string :=
  match ks with
  | [] => [k]
  | k' :: ks' =>
      match String_as_OT.compare k k' with
      | Lt => k :: ks
      | Eq => ks
      | Gt => k' :: insert_key k ks'
      end
  end.

Definition group_keys (df : DataFrame) : list string :=
  fold_right
    (fun r ks => match CountryName r with
                 | Some k => insert_key k ks
                 | None => ks
                 end)
    [] df.

(** The rows of one group, in the order of the frame. *)
Definition group (df : DataFrame) (k : string) : DataFrame :=
  filter (fun r => match CountryName r with
                   | Some n => String.eqb n k
                   | None => false
                   end)
         df.

Definition notna (x : spec_float) : bool := negb (Float64.isna x).

(** The aggregations ['first'] and ['last']: the first and the last
    non-null entry of the group, NaN when there is none. *)
Definition agg_first (vals : list spec_float) : spec_float :=
  hd S754_nan (filter notna vals).

Definition agg_last (vals : list spec_float) : spec_float :=
  last (filter notna vals) S754_nan.

(** [(Final_Value / Initial_Value - 1) * 100] on float64. *)
Definition total_growth (final initial : spec_float) : spec_float :=
  Float64.mul (Float64.sub (Float64.div final initial) (Float64.of_Z 1))
              (Float64.of_Z 100).

Definition growth_df (filtered : DataFrame) : list Growth.row :=
  map (fun k =>
         let vals := map Value (group filtered k) in
         let final := agg_last vals in
         let initial := agg_first vals in
         {| Growth.CountryName := k;
            Growth.Final_Value := final;
            Growth.Initial_Value := initial;
            Growth.Total_Growth := total_growth final initial |})
      (group_keys filtered).

(** The widget values one run of the script reads, and the three views
    it derives from the loaded frame. *)
Record widgets : Type := {
  selected_countries : list string;
  start_year : Z;
  map_year : Z
}.

Record views : Type := {
  filtered_view : DataFrame;
  growth_view : list Growth.row;
  map_view : DataFrame
}.

Definition derive (data_df : DataFrame) (w : widgets) : views :=
  let filtered := filtered_df data_df (selected_countries w) (start_year w) in
  {| filtered_view := filtered;
     growth_view := growth_df filtered;
     map_view := df_map data_df (map_year w) |}.

(** Row by row: what the cleaning makes of one raw record, in a frame
    whose country column is [numeric] or not and whose value column
    comes out with an integer dtype ([ints]) or not. *)
Definition clean_row (py : readers) (numeric ints : bool) (r : raw_record)
  : outcome IndicatorRecord :=
  n <- get_value numeric (country r) ;;
  y <- to_int py (date r) ;;
  Returned {| CountryName := n;
              CountryCode := code_cell (countryiso3code r);
              Year := y;
              Value := value_view ints (cell_reading py (value r)) |}.

(** The two facts about the columns of a list of records that the
    cleaning of a row depends on. *)
Definition numeric_of (py : readers) (rs : list raw_record) : bool :=
  numeric_column py (map country rs).

Definition ints_of (py : readers) (rs : list raw_record) : bool :=
  int_column (map (cell_reading py) (map value rs)).



(** The order [sort_values] establishes. *)
Definition key_le (r1 r2 : IndicatorRecord) : Prop := key_leb r1 r2 = true.

(** Equality of rows is decidable, so that occurrences can be counted. *)
Definition spec_float_eq_dec (x y : spec_float) : {x = y} + {x <> y}.
Proof.
  decide equality;
    try apply Bool.bool_dec; try apply Z.eq_dec; apply Pos.eq_dec.
Defined.

Definition IndicatorRecord_eq_dec (r1 r2 : IndicatorRecord)
  : {r1 = r2} + {r1 <> r2}.
Proof.
  decide equality;
    try apply spec_float_eq_dec; try apply Z.eq_dec;
    decide equality; apply string_dec.
Defined.

(** Rows of a filtered frame for the growth example: one country, 100
    in 2000 and 150 in 2005. *)
Definition growth_example (c : string) (code : option string) : DataFrame :=
  [{| CountryName := Some c; CountryCode := code;
      Year := 2000; Value := Float64.of_Z 100 |};
   {| CountryName := Some c; CountryCode := code;
      Year := 2005; Value := Float64.of_Z 150 |}].

(** ** Sample replies *)

(** The page metadata [{"page": 1}]. *)
Definition page_meta : element :=
  Plain (Object [("page"%string, SNumber (Float64.of_Z 1))]).

(** [{"country": {"value": "Brazil"}, "countryiso3code": "BRA",
     "date": "2020", "value": "8523.1"}]. *)
Definition brazil_2020 : raw_record :=
  {| country :=
       Present (CObject {| country_value := Present "Brazil"%string |});
     countryiso3code := Present "BRA"%string;
     date := Present "2020"%string;
     value := Present (Text "8523.1") |}.

Definition end_to_end_envelope : json :=
  JList [page_meta; Records [brazil_2020]].

(** The binary64 written [8523.1]. *)
Definition float_8523_1 : spec_float :=
  S754_finite false 4685623777348813 (-39).

(** [[{"page": 1}, null]]: the reply for a query without data. *)
Definition no_data_reply : json := JList [page_meta; Plain (Scalar SNull)].

(** The Brazil record followed by a record whose year is ["n/a"]. *)
Definition chile_bad_year : raw_record :=
  {| country :=
       Present (CObject {| country_value := Present "Chile"%string |});
     countryiso3code := Present "CHL"%string;
     date := Present "n/a"%string;
     value := Present (Number (Float64.of_Z 14000)) |}.

Definition bad_year_reply : json :=
  JList [page_meta; Records [brazil_2020; chile_bad_year]].

(** The Brazil record followed by a record without a ["country"] key. *)
Definition no_country_key : raw_record :=
  {| country := Absent;
     countryiso3code := Present "CHL"%string;
     date := Present "2020"%string;
     value := Present (Number (Float64.of_Z 14000)) |}.

Definition no_country_reply : json :=
  JList [page_meta; Records [brazil_2020; no_country_key]].

(** A record with an empty country name, an empty country code and the
    value [1e999], which the JSON decoder reads as infinity. *)
Definition blank_infinite : raw_record :=
  {| country := Present (CObject {| country_value := Present ""%string |});
     countryiso3code := Present ""%string;
     date := Present "2020"%string;
     value := Present (Number (S754_infinity false)) |}.

Definition blank_infinite_reply : json :=
  JList [page_meta; Records [blank_infinite]].

(** A record with a null country and one with a value that is not
    numeric, around the Brazil record. *)
Definition null_country : raw_record :=
  {| country := Null;
     countryiso3code := Present "XXX"%string;
     date := Present "2019"%string;
     value := Present (Number (Float64.of_Z 1)) |}.

Definition text_value : raw_record :=
  {| country :=
       Present (CObject {| country_value := Present "Peru"%string |});
     countryiso3code := Present "PER"%string;
     date := Present "2021"%string;
     value := Present (Text "..") |}.

(** Four records of two countries and two years, not in order. *)
Definition record (name code year : string) (v : number_or_text)
  : raw_record :=
  {| country := Present (CObject {| country_value := Present name |});
     countryiso3code := Present code;
     date := Present year;
     value := Present v |}.

Definition two_countries : list raw_record :=
  [record "Chile" "CHL" "2005" (Text "250.5");
   record "Brazil" "BRA" "2005" (Text "150");
   record "Chile" "CHL" "2000" (Text "200");
   record "Brazil" "BRA" "2000" (Text "100")]%string.

Definition two_countries_reply : json :=
  JList [page_meta; Records two_countries].

Definition row (name code : string) (year : Z) (v : spec_float)
  : IndicatorRecord :=
  {| CountryName := Some name; CountryCode := Some code;
     Year := year; Value := v |}.

(** The frame the four records clean to. *)
Definition two_countries_frame : DataFrame :=
  [row "Brazil" "BRA" 2000 (Float64.of_Z 100);
   row "Brazil" "BRA" 2005 (Float64.of_Z 150);
   row "Chile" "CHL" 2000 (Float64.of_Z 200);
   row "Chile" "CHL" 2005 (Float64.of_decimal false 2505 (-1))]%string.

(** A record without the code key and one without the value key. *)
Definition no_code : raw_record :=
  {| country :=
       Present (CObject {| country_value := Present "Chile"%string |});
     countryiso3code := Absent;
     date := Present "2018"%string;
     value := Present (Number (Float64.of_Z 14000)) |}.

Definition no_value : raw_record :=
  {| country :=
       Present (CObject {| country_value := Present "Peru"%string |});
     countryiso3code := Present "PER"%string;
     date := Present "2017"%string;
     value := Absent |}.

Definition sparse_records : list raw_record :=
  [null_country; no_code; brazil_2020; no_value; text_value].

(** The Brazil record with the string ["Brazil"] as its country, and
    with the number zero as its country. *)
Definition text_country : raw_record :=
  {| country := Present (COther true);
     countryiso3code := Present "BRA"%string;
     date := Present "2020"%string;
     value := Present (Text "8523.1") |}.

Definition zero_country : raw_record :=
  {| country := Present (CNumber false);
     countryiso3code := Present "BRA"%string;
     date := Present "2020"%string;
     value := Present (Text "8523.1") |}.

(** Two records whose values are the texts ["-0"] and ["7"]. *)
Definition integer_texts : list raw_record :=
  [record "Chile" "CHL" "2000" (Text "-0");
   record "Chile" "CHL" "2001" (Text "7")]%string.

(** The date [2020] after the file separator U+001C. *)
Definition separator_2020 : string := String (ascii_of_nat 28) "2020".

(** ** What the script reads off the loaded frame *)

(** [Series.unique()]: the distinct cells in the order of their first
    appearance. *)
Fixpoint unique_from {A : Type} (eqb : A -> A -> bool) (seen l : list A)
  : list A :=
  match l with
  | [] => []
  | x :: l' =>
      if existsb (eqb x) seen then unique_from eqb seen l'
      else x :: unique_from eqb (x :: seen) l'
  end.

Definition unique {A : Type} (eqb : A -> A -> bool) (l : list A) : list A :=
  unique_from eqb [] l.

(** The builtin [sorted] on cells that compare by [leb]; equal cells keep
    their order. *)
Fixpoint insert_by {A : Type} (leb : A -> A -> bool) (x : A) (l : list A)
  : list A :=
  match l with
  | [] => [x]
  | y :: l' => if leb x y then x :: l else y :: insert_by leb x l'
  end.

Definition sorted_by {A : Type} (leb : A -> A -> bool) (l : list A) : list A :=
  fold_right (insert_by leb) [] l.




(** [data_df['Year'].min()] and [data_df['Year'].max()]; [None] is the
    NaN pandas gives for a column without rows. *)
Definition min_year_available (data_df : DataFrame) : option Z :=
  match map Year data_df with
  | [] => None
  | y :: ys => Some (fold_left Z.min ys y)
  end.

Definition max_year_available (data_df : DataFrame) : option Z :=
  match map Year data_df with
  | [] => None
  | y :: ys => Some (fold_left Z.max ys y)
  end.

(** [data_df[data_df['Year'] == max_year_available]]; no year equals
    NaN. *)
Definition last_year_data (data_df : DataFrame) : DataFrame :=
  filter (fun r => match max_year_available data_df with
                   | Some m => Year r =? m
                   | None => false
                   end)
         data_df.

(** [sorted(data_df['Year'].unique())], the options of the map year
    selector. *)
Definition map_year_options (data_df : DataFrame) : list Z :=
  sorted_by Z.leb (unique Z.eqb (map Year data_df)).

(** ** The script *)

(** The branch the script takes after loading: the dashboard on the
    loaded frame, or the error page. *)
Inductive page : Type :=
  | Dashboard (data_df : DataFrame)
  | NoData.

(** [DataFrame.empty]. *)
Definition empty (df : DataFrame) : bool :=
  match df with [] => true | _ => false end.

(** The script from [data_df = load_data(API_BASE_URL)] to the choice
    between its two branches, with the [st.error] notices emitted up to
    the end of the [else] branch. *)
Definition main (py : readers) (got : get_result)
  : outcome page * list notice :=
  let (loaded, notices) := load_data py got in
  match loaded with
  | Returned data_df =>
      if negb (empty data_df)
      then (Returned (Dashboard data_df), notices)
      else (Returned NoData,
            notices ++
            [st_error "No se pudo cargar el DataFrame. Revise la conexión a internet o el URL de la API."])
  | Raised e => (Raised e, notices)
  end.

(** The notice of the [else] branch. *)
Definition no_data_notice : notice :=
  st_error "No se pudo cargar el DataFrame. Revise la conexión a internet o el URL de la API.".

(** ** The order of the sort key *)

Section KeyOrder.

Lemma string_compare_refl (s : string) : String_as_OT.compare s s = Eq.
Proof.
  destruct (String_as_OT.compare_spec s s) as [_ | H | H];
    [reflexivity | | ]; exfalso; revert H; apply irreflexivity.
Qed.

Lemma string_compare_eq (a b : string) :
  String_as_OT.compare a b = Eq -> a = b.
Proof.
  destruct (String_as_OT.compare_spec a b); congruence.
Qed.

Lemma string_compare_gt (a b : string) :
  String_as_OT.compare a b = Gt -> String_as_OT.compare b a = Lt.
Proof.
  destruct (String_as_OT.compare_spec a b) as [ | | H];
    try discriminate; intros _; exact H.
Qed.

Lemma string_compare_lt_gt (a b : string) :
  String_as_OT.compare a b = Lt -> String_as_OT.compare b a = Gt.
Proof.
  intros H. destruct (String_as_OT.compare_spec b a) as [E | L | G].
  - unfold String_as_OT.eq in E. subst.
    rewrite string_compare_refl in H. discriminate.
  - exfalso. apply (irreflexivity (R := String_as_OT.lt) (x := a)).
    etransitivity; eassumption.
  - reflexivity.
Qed.

Lemma string_lt_trans (a b c : string) :
  String_as_OT.compare a b = Lt -> String_as_OT.compare b c = Lt ->
  String_as_OT.compare a c = Lt.
Proof. apply (@transitivity _ String_as_OT.lt _). Qed.

Lemma name_compare_refl (a : option string) : name_compare a a = Eq.
Proof. destruct a; simpl; [apply string_compare_refl | reflexivity]. Qed.

Lemma name_compare_eq (a b : option string) :
  name_compare a b = Eq -> a = b.
Proof.
  destruct a, b; simpl; try discriminate; [ | reflexivity].
  intros H. f_equal. now apply string_compare_eq.
Qed.

Lemma name_compare_gt (a b : option string) :
  name_compare a b = Gt -> name_compare b a = Lt.
Proof.
  destruct a, b; simpl; try discriminate; try reflexivity.
  apply string_compare_gt.
Qed.

Lemma name_compare_lt_gt (a b : option string) :
  name_compare a b = Lt -> name_compare b a = Gt.
Proof.
  destruct a, b; simpl; try discriminate; try reflexivity.
  apply string_compare_lt_gt.
Qed.

Lemma name_lt_trans (a b c : option string) :
  name_compare a b = Lt -> name_compare b c = Lt -> name_compare a c = Lt.
Proof.
  destruct a, b, c; simpl; try discriminate; try reflexivity.
  apply string_lt_trans.
Qed.

Lemma key_le_total (r1 r2 : IndicatorRecord) :
  key_leb r1 r2 = false -> key_le r2 r1.
Proof.
  unfold key_le, key_leb.
  destruct (name_compare (CountryName r1) (CountryName r2)) eqn:E.
  - apply name_compare_eq in E. rewrite E, name_compare_refl. lia.
  - discriminate.
  - now rewrite (name_compare_gt _ _ E).
Qed.

Lemma key_le_trans (r1 r2 r3 : IndicatorRecord) :
  key_le r1 r2 -> key_le r2 r3 -> key_le r1 r3.
Proof.
  unfold key_le, key_leb.
  destruct (name_compare (CountryName r1) (CountryName r2)) eqn:E12;
    try discriminate;
    destruct (name_compare (CountryName r2) (CountryName r3)) eqn:E23;
    try discriminate.
  - apply name_compare_eq in E12, E23. rewrite E12, E23, name_compare_refl.
    lia.
  - apply name_compare_eq in E12. rewrite E12, E23. reflexivity.
  - apply name_compare_eq in E23. rewrite <- E23, E12. reflexivity.
  - now rewrite (name_lt_trans _ _ _ E12 E23).
Qed.

(** Two rows in key order that name the same country are in year
    order. *)
Lemma key_le_same_name (r1 r2 : IndicatorRecord) :
  key_le r1 r2 -> CountryName r1 = CountryName r2 -> Year r1 <= Year r2.
Proof.
  unfold key_le, key_leb. intros H E.
  rewrite E, name_compare_refl in H. lia.
Qed.

End KeyOrder.

(** ** Sorting and filtering *)

Section Sorting.

Lemma insert_row_perm (r : IndicatorRecord) (df : DataFrame) :
  Permutation (insert_row r df) (r :: df).
Proof.
  induction df as [ | r' df IH]; simpl.
  - apply Permutation_refl.
  - destruct (key_leb r r').
    + apply Permutation_refl.
    + eapply perm_trans; [apply perm_skip, IH | apply perm_swap].
Qed.

Lemma sort_values_perm (df : DataFrame) : Permutation (sort_values df) df.
Proof.
  induction df as [ | r df IH]; simpl.
  - constructor.
  - eapply perm_trans; [apply insert_row_perm | now apply perm_skip].
Qed.

Lemma insert_row_sorted (r : IndicatorRecord) (df : DataFrame) :
  StronglySorted key_le df -> StronglySorted key_le (insert_row r df).
Proof.
  induction 1 as [ | r' df Hs IH Hall]; simpl.
  - repeat constructor.
  - destruct (key_leb r r') eqn:E.
    + constructor; [now constructor | ].
      constructor; [exact E | ].
      eapply Forall_impl; [ | exact Hall].
      intros x Hx. now apply key_le_trans with r'.
    + constructor; [exact IH | ].
      eapply Permutation_Forall;
        [apply Permutation_sym, insert_row_perm | ].
      constructor; [now apply key_le_total | exact Hall].
Qed.

Lemma sort_values_sorted (df : DataFrame) :
  StronglySorted key_le (sort_values df).
Proof.
  induction df as [ | r df IH]; simpl.
  - constructor.
  - now apply insert_row_sorted.
Qed.

Lemma filter_sorted {A : Type} (R : A -> A -> Prop) (p : A -> bool)
  (l : list A) :
  StronglySorted R l -> StronglySorted R (filter p l).
Proof.
  induction 1 as [ | x l Hs IH Hall]; simpl.
  - constructor.
  - destruct (p x); [ | exact IH].
    constructor; [exact IH | ].
    apply Forall_forall. intros y Hy. apply filter_In in Hy.
    rewrite Forall_forall in Hall. now apply Hall.
Qed.

(** In a strongly sorted list, an earlier position is related to a
    later one. *)
Lemma sorted_nth {A : Type} (R : A -> A -> Prop) (l : list A) :
  StronglySorted R l ->
  forall i j x y, (i < j)%nat ->
    nth_error l i = Some x -> nth_error l j = Some y -> R x y.
Proof.
  induction 1 as [ | a l Hs IH Hall]; intros i j x y Hij Hi Hj.
  - destruct i; discriminate.
  - destruct j as [ | j]; [lia | ]. simpl in Hj.
    destruct i as [ | i]; simpl in Hi.
    + injection Hi as <-. rewrite Forall_forall in Hall.
      apply Hall. eapply nth_error_In; eassumption.
    + apply (IH i j); [lia | assumption | assumption].
Qed.

Lemma filter_idem {A : Type} (p : A -> bool) (l : list A) :
  filter p (filter p l) = filter p l.
Proof.
  induction l as [ | x l IH]; simpl; [reflexivity | ].
  destruct (p x) eqn:E; simpl; [rewrite E, IH | ]; auto.
Qed.

End Sorting.

(** ** Cleaning, column by column and row by row *)

Section Cleaning.

Variable py : readers.

Lemma apply_Forall2 {A B : Type} (f : A -> outcome B) (s : list A)
  (out : list B) :
  apply f s = Returned out <-> Forall2 (fun x y => f x = Returned y) s out.
Proof.
  revert out. induction s as [ | x s IH]; intros out; simpl.
  - split.
    + intros H. injection H as <-. constructor.
    + intros H. inversion H. reflexivity.
  - split.
    + destruct (f x) as [y | e] eqn:Ex; simpl; [ | discriminate].
      destruct (apply f s) as [ys | e] eqn:Es; simpl; [ | discriminate].
      intros H. injection H as <-. constructor; [exact Ex | ].
      now apply IH.
    + intros H. inversion H as [ | x' y s' ys Hx Hs]; subst.
      rewrite Hx. simpl. apply IH in Hs. rewrite Hs. reflexivity.
Qed.

Lemma Forall2_In_right {A B : Type} (R : A -> B -> Prop) (l : list A)
  (l' : list B) (y : B) :
  Forall2 R l l' -> In y l' -> exists x, In x l /\ R x y.
Proof.
  induction 1 as [ | a b l l' Hab _ IH]; simpl.
  - contradiction.
  - intros [<- | Hin].
    + exists a. auto.
    + destruct (IH Hin) as [x [Hx Hr]]. exists x. auto.
Qed.

(** The frame of the cleaned columns is the list of the cleaned rows. *)
Lemma columns_to_rows (numeric ints : bool) (rs : list raw_record) :
  forall names years,
    apply (get_value numeric) (map country rs) = Returned names ->
    apply (to_int py) (map date rs) = Returned years ->
    apply (clean_row py numeric ints) rs
    = Returned (frame names (map countryiso3code rs) years
                      (map (value_view ints)
                           (map (cell_reading py) (map value rs)))).
Proof.
  induction rs as [ | r rs IH]; intros names years Hn Hy; simpl in *.
  - injection Hn as <-. reflexivity.
  - unfold clean_row at 1.
    destruct (get_value numeric (country r)) as [n | e]; simpl in *;
      [ | discriminate].
    destruct (apply (get_value numeric) (map country rs)) as [ns | e];
      simpl in *; [ | discriminate].
    destruct (to_int py (date r)) as [y | e]; simpl in *; [ | discriminate].
    destruct (apply (to_int py) (map date rs)) as [ys | e];
      simpl in *; [ | discriminate].
    injection Hn as <-. injection Hy as <-.
    rewrite (IH ns ys eq_refl eq_refl). reflexivity.
Qed.


Lemma existsb_carries {A : Type} (col : raw_record -> field A)
  (rs : list raw_record) :
  existsb (fun r => carries (col r)) rs = true <->
  exists r, In r rs /\ col r <> Absent.
Proof.
  rewrite existsb_exists. split; intros [r [Hin Hr]]; exists r; split; auto.
  - destruct (col r); [discriminate | congruence | congruence].
  - destruct (col r); [congruence | reflexivity | reflexivity].
Qed.



Lemma process_rows_inv (x : element) (rest : list element)
  (rs : list raw_record) (df : DataFrame) :
  process_world_bank_data py (JList (x :: Records rs :: rest))
  = Returned df ->
  (exists r, In r rs /\ countryiso3code r <> Absent)
  /\ (exists r, In r rs /\ value r <> Absent)
  /\ exists rows,
       apply (clean_row py (numeric_of py rs) (ints_of py rs)) rs
       = Returned rows
       /\ df = sort_values (dropna rows).
Proof.
  unfold process_world_bank_data. cbn [pd_DataFrame bind]. unfold getitem.
  destruct (existsb (fun r => carries (country r)) rs);
    cbn [bind]; [ | discriminate].
  fold (numeric_of py rs).
  destruct (apply (get_value (numeric_of py rs)) (map country rs))
    as [names | e] eqn:Hn; cbn [bind]; [ | discriminate].
  destruct (existsb (fun r => carries (countryiso3code r)) rs) eqn:Hcode;
    cbn [bind]; [ | discriminate].
  destruct (existsb (fun r => carries (date r)) rs);
    cbn [bind]; [ | discriminate].
  destruct (apply (to_int py) (map date rs)) as [years | e] eqn:Hy;
    cbn [bind]; [ | discriminate].
  destruct (existsb (fun r => carries (value r)) rs) eqn:Hval;
    cbn [bind]; [ | discriminate].
  intros H. injection H as <-.
  split; [now apply existsb_carries | ].
  split; [now apply existsb_carries | ].
  unfold to_numeric. fold (ints_of py rs).
  eexists. split; [exact (columns_to_rows _ _ rs names years Hn Hy) | ].
  reflexivity.
Qed.

(** Whatever the cleaning returns is the sorted frame of the cleaned
    rows that have a value and a country name. *)
Lemma process_returned (raw_data : json) (df : DataFrame) :
  process_world_bank_data py raw_data = Returned df ->
  exists rs rows,
    apply (clean_row py (numeric_of py rs) (ints_of py rs)) rs = Returned rows
    /\ df = sort_values (dropna rows).
Proof.
  destruct raw_data as [p | [ | x [ | second rest]]];
    try (intros H; injection H as <-; exists [], []; split; reflexivity).
  destruct second as [[v | members] | rs].
  - destruct v; simpl; try discriminate.
  - destruct members; simpl; discriminate.
  - intros H. apply process_rows_inv in H.
    destruct H as [_ [_ [rows [Hrows Hdf]]]]. eauto.
Qed.



Lemma clean_row_fields (numeric ints : bool) (r : raw_record)
  (row : IndicatorRecord) :
  clean_row py numeric ints r = Returned row ->
  get_value numeric (country r) = Returned (CountryName row)
  /\ CountryCode row = code_cell (countryiso3code r)
  /\ to_int py (date r) = Returned (Year row)
  /\ Value row = value_view ints (cell_reading py (value r)).
Proof.
  unfold clean_row.
  destruct (get_value numeric (country r)) as [n | e]; simpl;
    [ | discriminate].
  destruct (to_int py (date r)) as [y | e]; simpl; [ | discriminate].
  intros H. injection H as <-. simpl. auto.
Qed.


Lemma clean_row_year (numeric ints : bool) (r : raw_record)
  (row : IndicatorRecord) :
  clean_row py numeric ints r = Returned row ->
  int64_min <= Year row <= int64_max.
Proof.
  intros H. apply clean_row_fields in H. destruct H as [_ [_ [H _]]].
  unfold to_int in H.
  destruct (date r) as [ | | s]; try discriminate.
  destruct (Py.int (int_other py) s) as [z | ]; try discriminate.
  destruct ((int64_min <=? z) && (z <=? int64_max)) eqn:E;
    [ | discriminate].
  injection H as <-. apply andb_true_iff in E. lia.
Qed.

(** No returned row has a NaN value. *)
Lemma returned_values_notna (raw_data : json) (df : DataFrame) :
  process_world_bank_data py raw_data = Returned df ->
  Forall (fun r => Float64.isna (Value r) = false) df.
Proof.
  intros H. destruct (process_returned _ _ H) as [rs [rows [_ ->]]].
  eapply Permutation_Forall; [apply Permutation_sym, sort_values_perm | ].
  apply Forall_forall. intros r Hr. unfold dropna in Hr.
  apply filter_In in Hr. destruct Hr as [_ Hkeep].
  apply andb_true_iff in Hkeep. now apply negb_true_iff.
Qed.

(** A cell function that raises only [e] makes [apply] raise [e] as soon
    as one cell raises. *)
Lemma apply_raises {A B : Type} (f : A -> outcome B) (e : exn) (s : list A) :
  (forall a e', f a = Raised e' -> e' = e) ->
  (exists a, In a s /\ forall b, f a <> Returned b) ->
  apply f s = Raised e.
Proof.
  intros Honly. induction s as [ | a s IH]; intros [a0 [Hin Hbad]].
  - contradiction.
  - simpl. destruct (f a) as [b | e'] eqn:Ea; simpl.
    + destruct Hin as [<- | Hin]; [now elim (Hbad b) | ].
      rewrite IH by eauto. reflexivity.
    + now rewrite (Honly a e' Ea).
Qed.

Lemma apply_returns {A B : Type} (f : A -> outcome B) (s : list A) :
  (forall a, In a s -> exists b, f a = Returned b) ->
  exists out, apply f s = Returned out.
Proof.
  induction s as [ | a s IH]; intros Hall; simpl.
  - eauto.
  - destruct (Hall a (or_introl eq_refl)) as [b ->].
    destruct IH as [out ->]; [intros a' Ha'; apply Hall; now right | ].
    simpl. eauto.
Qed.

End Cleaning.

(** The sample replies raise or clean as the source does, whatever the
    readers. *)
Lemma sample_runs (py : readers) :
  process_world_bank_data py no_data_reply = Raised (KeyError "country")
  /\ process_world_bank_data py bad_year_reply = Raised CastError
  /\ process_world_bank_data py no_country_reply = Raised AttributeError
  /\ process_world_bank_data py two_countries_reply
     = Returned two_countries_frame.
Proof. repeat split; vm_compute; reflexivity. Qed.

(** [int] skips the white space of ASCII around the digits and takes
    single underscores between them; the file separator is no white
    space to it, and a text with a point is no integer literal. *)
Example int_readings (other : string -> option Z) :
  Py.int other " 2020 " = Some 2020
  /\ Py.int other "2_020" = Some 2020
  /\ Py.int other "-0" = Some 0
  /\ Py.int other separator_2020 = None
  /\ Py.int other "2020.0" = None
  /\ Py.int other "" = None.
Proof. repeat split. Qed.

(** The number reader: a plain decimal is read here, a text without a
    digit is no number, and white space, exponents and the words for
    infinity are left to [other]. *)
Example number_readings (other : string -> Py.reading) :
  Py.read other "-0" = Py.IntLit 0 (S754_zero true)
  /\ Py.read other "8523.1" = Py.FloatLit float_8523_1
  /\ Py.read other ".." = Py.NotNumber
  /\ Py.read other "" = Py.NotNumber
  /\ Py.read other " inf " = other " inf "%string
  /\ Py.read other "inf" = other "inf"%string
  /\ Py.read other " 7" = other " 7"%string
  /\ Py.read other "1e3" = other "1e3"%string.
Proof. repeat split. Qed.

(** A value column of integer literals comes out with an integer dtype:
    the text ["-0"] is the integer 0 in it, not the float -0.0. *)
Example integer_column (py : readers) :
  process_world_bank_data py (JList [page_meta; Records integer_texts])
  = Returned [row "Chile" "CHL" 2000 (S754_zero false);
              row "Chile" "CHL" 2001 (Float64.of_Z 7)].
Proof. reflexivity. Qed.

(** A country that is a string makes the lambda raise; the number zero
    as a country gives a null name, and its row is dropped; [null]
    beside it is stored as NaN, on which the lambda raises. *)
Example country_not_an_object (py : readers) :
  process_world_bank_data py
    (JList [page_meta; Records [brazil_2020; text_country]])
  = Raised AttributeError
  /\ process_world_bank_data py
       (JList [page_meta; Records [brazil_2020; zero_country]])
     = Returned [row "Brazil" "BRA" 2020 float_8523_1]
  /\ process_world_bank_data py
       (JList [page_meta; Records [zero_country; null_country]])
     = Raised AttributeError.
Proof. repeat split. Qed.

(** ** The cleaning routine *)




(** Of the five sparse records two are kept: the one without the code
    key, with a null code, and the Brazil one; the null country, the
    missing value and the value that is no number drop their own row
    only. *)
Example sparse_records_clean (py : readers) :
  process_world_bank_data py (JList [page_meta; Records sparse_records])
  = Returned [{| CountryName := Some "Brazil"%string;
                 CountryCode := Some "BRA"%string;
                 Year := 2020; Value := float_8523_1 |};
              {| CountryName := Some "Chile"%string;
                 CountryCode := None;
                 Year := 2018; Value := Float64.of_Z 14000 |}].
Proof. reflexivity. Qed.

(** C5, as the specification states it, fails: a cleaned row can hold an
    infinite value, an empty country name and a country code that does
    not have three characters. *)
Lemma normalized_row_not_valid :
  exists r,
    process_world_bank_data plain_readers blank_infinite_reply
    = Returned [r]
    /\ Float64.is_finite (Value r) = false
    /\ CountryName r = Some ""%string
    /\ CountryCode r = Some ""%string.
Proof. eexists. repeat split. Qed.

(** C5, amended.  Every row of a frame the cleaning returns has a value
    that is not NaN, a country name that is not null, and a year that is
    a 64-bit integer. *)
Theorem normalized_rows_valid (py : readers) (raw_data : json)
  (df : DataFrame) :
  process_world_bank_data py raw_data = Returned df ->
  Forall (fun r => Float64.isna (Value r) = false
                   /\ (exists s, CountryName r = Some s)
                   /\ int64_min <= Year r <= int64_max)
         df.
Proof.
  intros H. destruct (process_returned py _ _ H) as [rs [rows [Hrows ->]]].
  eapply Permutation_Forall; [apply Permutation_sym, sort_values_perm | ].
  apply Forall_forall. intros r Hr. unfold dropna in Hr.
  apply filter_In in Hr. destruct Hr as [Hin Hkeep].
  apply andb_true_iff in Hkeep. destruct Hkeep as [Hv Hn].
  split; [now apply negb_true_iff | split].
  - destruct (CountryName r) as [s | ]; [eauto | discriminate].
  - apply apply_Forall2 in Hrows.
    destruct (Forall2_In_right _ _ _ _ Hrows Hin) as [raw_r [_ Hc]].
    exact (clean_row_year py _ _ _ _ Hc).
Qed.

Lemma normalized_rows_valid_witness :
  process_world_bank_data plain_readers two_countries_reply
  = Returned two_countries_frame
  /\ Forall (fun r => Float64.isna (Value r) = false
                      /\ (exists s, CountryName r = Some s)
                      /\ int64_min <= Year r <= int64_max)
            two_countries_frame.
Proof.
  split; [reflexivity | ].
  apply (normalized_rows_valid plain_readers two_countries_reply).
  reflexivity.
Defined.

(** C6. The frame the cleaning returns is in non-decreasing order of the
    key (CountryName, Year); the country and start-year filter keeps that
    order, and in the filtered frame a later row of a country never has
    an earlier year than a row of that country before it. *)
Theorem normalized_sorted (py : readers) (raw_data : json)
  (data_df : DataFrame) :
  process_world_bank_data py raw_data = Returned data_df ->
  StronglySorted key_le data_df
  /\ forall selected_countries start_year,
       let filtered := filtered_df data_df selected_countries start_year in
       StronglySorted key_le filtered
       /\ forall i j r1 r2,
            (i < j)%nat ->
            nth_error filtered i = Some r1 ->
            nth_error filtered j = Some r2 ->
            CountryName r1 = CountryName r2 ->
            Year r1 <= Year r2.
Proof.
  intros H. destruct (process_returned py _ _ H) as [rs [rows [_ ->]]].
  assert (Hs : StronglySorted key_le (sort_values (dropna rows)))
    by apply sort_values_sorted.
  split; [exact Hs | ].
  intros sel start filtered.
  assert (Hf : StronglySorted key_le filtered)
    by (apply filter_sorted, Hs).
  split; [exact Hf | ].
  intros i j r1 r2 Hij H1 H2 Hname.
  apply key_le_same_name; [ | exact Hname].
  exact (sorted_nth key_le filtered Hf i j r1 r2 Hij H1 H2).
Qed.

(** The four records, which arrive with Chile before Brazil and 2005
    before 2000, come back in the order Brazil 2000, Brazil 2005, Chile
    2000, Chile 2005, and every view of that frame keeps the order. *)
Lemma normalized_sorted_witness :
  process_world_bank_data plain_readers two_countries_reply
  = Returned two_countries_frame
  /\ StronglySorted key_le two_countries_frame
  /\ forall selected_countries start_year,
       let filtered :=
         filtered_df two_countries_frame selected_countries start_year in
       StronglySorted key_le filtered
       /\ forall i j r1 r2,
            (i < j)%nat ->
            nth_error filtered i = Some r1 ->
            nth_error filtered j = Some r2 ->
            CountryName r1 = CountryName r2 ->
            Year r1 <= Year r2.
Proof.
  split; [reflexivity | ].
  exact (normalized_sorted plain_readers two_countries_reply
           two_countries_frame eq_refl).
Defined.

(** C7. The envelope [[{page: 1}, [{country: {value: "Brazil"},
    countryiso3code: "BRA", date: "2020", value: "8523.1"}]]] cleans to
    the single row (Brazil, BRA, 2020, 8523.1): the year text is read as
    the integer 2020 and the value text as the binary64 nearest to
    8523.1. *)
Theorem end_to_end (py : readers) :
  process_world_bank_data py end_to_end_envelope
  = Returned [{| CountryName := Some "Brazil"%string;
                 CountryCode := Some "BRA"%string;
                 Year := 2020;
                 Value := float_8523_1 |}]
  /\ Py.int (int_other py) "2020" = Some 2020
  /\ Py.to_float (number_other py) "8523.1" = Some float_8523_1
  /\ valid_binary Float64.prec Float64.emax float_8523_1 = true
  /\ Z.abs (20 * 4685623777348813 - 85231 * 2 ^ 40) <= 10.
Proof. repeat split; vm_compute; try reflexivity; discriminate. Qed.

(** ** The country and start-year filter *)

Section Filter.

Variable data_df : DataFrame.
Variable selected_countries : list string.
Variable start_year : Z.

Lemma isin_spec (n : option string) :
  isin n selected_countries = true <->
  exists s, n = Some s /\ In s selected_countries.
Proof.
  destruct n as [s | ]; simpl.
  - rewrite existsb_exists. split.
    + intros [x [Hin Heq]]. apply String.eqb_eq in Heq. subst x. eauto.
    + intros [x [Heq Hin]]. injection Heq as <-. exists s.
      split; [exact Hin | apply String.eqb_refl].
  - split; [discriminate | intros [s [H _]]; discriminate].
Qed.

Lemma filtered_df_In (r : IndicatorRecord) :
  In r (filtered_df data_df selected_countries start_year) <->
  In r data_df
  /\ (exists s, CountryName r = Some s /\ In s selected_countries)
  /\ start_year <= Year r.
Proof.
  unfold filtered_df. rewrite filter_In, andb_true_iff, isin_spec.
  rewrite Z.leb_le. tauto.
Qed.

End Filter.

Lemma count_occ_filter (p : IndicatorRecord -> bool) (df : DataFrame)
  (r : IndicatorRecord) :
  count_occ IndicatorRecord_eq_dec (filter p df) r
  = if p r then count_occ IndicatorRecord_eq_dec df r else 0%nat.
Proof.
  induction df as [ | x df IH]; simpl.
  - now destruct (p r).
  - destruct (IndicatorRecord_eq_dec x r) as [-> | Hne].
    + destruct (p r) eqn:E; simpl.
      * destruct (IndicatorRecord_eq_dec r r); [ | congruence].
        now rewrite IH.
      * exact IH.
    + destruct (p x); simpl; [ | exact IH].
      destruct (IndicatorRecord_eq_dec x r); [congruence | exact IH].
Qed.

(** C8. The filtered view holds exactly the rows whose country name is
    among the selected countries and whose year is at least the start
    year, each as often as the loaded frame holds it; with no country
    selected it has no rows.  The filter is a total function: it produces
    this result without raising. *)
Theorem filtered_df_spec (data_df : DataFrame)
  (selected_countries : list string) (start_year : Z) :
  (forall r,
      In r (filtered_df data_df selected_countries start_year) <->
      In r data_df
      /\ (exists s, CountryName r = Some s /\ In s selected_countries)
      /\ start_year <= Year r)
  /\ (forall r,
        count_occ IndicatorRecord_eq_dec
          (filtered_df data_df selected_countries start_year) r
        = if isin (CountryName r) selected_countries && (start_year <=? Year r)
          then count_occ IndicatorRecord_eq_dec data_df r
          else 0%nat)
  /\ filtered_df data_df [] start_year = []
  /\ List.length (filtered_df data_df [] start_year) = 0%nat.
Proof.
  split; [apply filtered_df_In | ].
  split; [intros r; apply count_occ_filter | ].
  assert (H : filtered_df data_df [] start_year = []).
  { unfold filtered_df. induction data_df as [ | r df IH]; simpl; auto.
    destruct (CountryName r); simpl; exact IH. }
  now rewrite H.
Qed.

(** C10. The country and start-year filter is idempotent: filtering a
    filtered frame again with the same selection and the same start year
    changes nothing. *)
Theorem filtered_df_idempotent (data_df : DataFrame)
  (selected_countries : list string) (start_year : Z) :
  filtered_df (filtered_df data_df selected_countries start_year)
              selected_countries start_year
  = filtered_df data_df selected_countries start_year.
Proof. unfold filtered_df. apply filter_idem. Qed.

(** ** The map snapshot *)

(** C9. The map snapshot holds exactly the rows of the whole loaded
    frame whose year is the selected map year, each as often as the frame
    holds it; the selected countries and the start year of the other
    views have no part in it. *)
Theorem df_map_spec (data_df : DataFrame) (map_year : Z) :
  (forall r, In r (df_map data_df map_year) <->
             In r data_df /\ Year r = map_year)
  /\ (forall r,
        count_occ IndicatorRecord_eq_dec (df_map data_df map_year) r
        = if Year r =? map_year
          then count_occ IndicatorRecord_eq_dec data_df r
          else 0%nat)
  /\ (forall selected_countries start_year,
        map_view (derive data_df
                    {| selected_countries := selected_countries;
                       start_year := start_year;
                       map_year := map_year |})
        = df_map data_df map_year).
Proof.
  split.
  - intros r. unfold df_map. rewrite filter_In, Z.eqb_eq. tauto.
  - split; [intros r; apply count_occ_filter | reflexivity].
Qed.

(** ** The growth table *)

Section GroupKeys.

Lemma insert_key_In (k x : string) (ks : list string) :
  In x (insert_key k ks) <-> x = k \/ In x ks.
Proof.
  induction ks as [ | k' ks IH]; simpl.
  - split; intros [H | []]; left; congruence.
  - destruct (String_as_OT.compare k k') eqn:E; simpl.
    + apply string_compare_eq in E. subst k'.
      split; [intros H; right; exact H | ].
      intros [H | H]; [left; congruence | exact H].
    + split; (intros [H | H]; [left; congruence | right; exact H]).
    + rewrite IH. split.
      * intros [H | [H | H]]; auto.
      * intros [H | [H | H]]; auto.
Qed.

Lemma insert_key_sorted (k : string) (ks : list string) :
  StronglySorted String_as_OT.lt ks ->
  StronglySorted String_as_OT.lt (insert_key k ks).
Proof.
  induction 1 as [ | k' ks Hs IH Hall]; simpl.
  - repeat constructor.
  - destruct (String_as_OT.compare k k') eqn:E.
    + now constructor.
    + constructor; [now constructor | ].
      constructor; [exact E | ].
      eapply Forall_impl; [ | exact Hall].
      intros x Hx. now apply string_lt_trans with k'.
    + constructor; [exact IH | ].
      apply Forall_forall. intros x Hx. apply insert_key_In in Hx.
      destruct Hx as [-> | Hx].
      * now apply string_compare_gt.
      * rewrite Forall_forall in Hall. now apply Hall.
Qed.

Lemma group_keys_sorted (df : DataFrame) :
  StronglySorted String_as_OT.lt (group_keys df).
Proof.
  induction df as [ | r df IH]; simpl.
  - constructor.
  - destruct (CountryName r); [now apply insert_key_sorted | exact IH].
Qed.

Lemma group_keys_In (df : DataFrame) (k : string) :
  In k (group_keys df) <-> exists r, In r df /\ CountryName r = Some k.
Proof.
  induction df as [ | r df IH]; simpl.
  - split; [contradiction | intros [r [[] _]]].
  - destruct (CountryName r) as [n | ] eqn:En.
    + rewrite insert_key_In, IH. split.
      * intros [-> | [r' [Hin Hr']]]; [exists r; auto | exists r'; auto].
      * intros [r' [[<- | Hin] Hr']].
        -- left. congruence.
        -- right. eauto.
    + rewrite IH. split.
      * intros [r' [Hin Hr']]. eauto.
      * intros [r' [[<- | Hin] Hr']]; [congruence | eauto].
Qed.

Lemma sorted_lt_NoDup (ks : list string) :
  StronglySorted String_as_OT.lt ks -> NoDup ks.
Proof.
  induction 1 as [ | k ks Hs IH Hall]; constructor; [ | exact IH].
  intros Hin. rewrite Forall_forall in Hall.
  apply (irreflexivity (R := String_as_OT.lt) (x := k)). now apply Hall.
Qed.

Lemma group_In (df : DataFrame) (k : string) (r : IndicatorRecord) :
  In r (group df k) <-> In r df /\ CountryName r = Some k.
Proof.
  unfold group. rewrite filter_In.
  destruct (CountryName r) as [n | ].
  - rewrite String.eqb_eq. split; intros [H1 H2]; split; congruence.
  - split; intros [_ H]; discriminate.
Qed.

Lemma growth_df_names (filtered : DataFrame) :
  map Growth.CountryName (growth_df filtered) = group_keys filtered.
Proof.
  unfold growth_df. rewrite map_map. simpl. apply map_id.
Qed.

Lemma last_cons_default {A : Type} (l : list A) :
  forall x d : A, last (x :: l) d = last l x.
Proof.
  induction l as [ | y l IH]; intros x d; [reflexivity | ].
  change (last (x :: y :: l) d) with (last (y :: l) d).
  now rewrite !IH.
Qed.

Lemma last_map_cons {A B : Type} (f : A -> B) (x : A) (l : list A) (d : B) :
  last (map f (x :: l)) d = f (last l x).
Proof.
  revert x. induction l as [ | y l IH]; intros x; [reflexivity | ].
  change (last (map f (x :: y :: l)) d) with (last (map f (y :: l)) d).
  rewrite IH. now rewrite last_cons_default.
Qed.

Lemma filter_all {A : Type} (p : A -> bool) (l : list A) :
  Forall (fun x => p x = true) l -> filter p l = l.
Proof.
  induction 1 as [ | x l Hx _ IH]; simpl; [reflexivity | ].
  now rewrite Hx, IH.
Qed.

(** In a group without NaN values, ['first'] and ['last'] are the values
    of the first and the last row. *)
Lemma agg_first_last (first : IndicatorRecord) (rest : DataFrame) :
  Forall (fun r => Float64.isna (Value r) = false) (first :: rest) ->
  agg_first (map Value (first :: rest)) = Value first
  /\ agg_last (map Value (first :: rest)) = Value (last rest first).
Proof.
  intros Hall. unfold agg_first, agg_last.
  rewrite filter_all.
  - split; [reflexivity | apply last_map_cons].
  - apply Forall_map. eapply Forall_impl; [ | exact Hall].
    intros r Hr. unfold notna. now rewrite Hr.
Qed.

Lemma total_growth_zero (final : spec_float) (s : bool) :
  let t := total_growth final (S754_zero s) in
  Float64.is_inf t = true \/ Float64.isna t = true.
Proof.
  destruct final as [s' | s' | | s' m e]; destruct s;
    try destruct s'; simpl; auto.
Qed.

End GroupKeys.

Section GroupRows.

Lemma filter_nil {A : Type} (p : A -> bool) (l : list A) :
  filter p l = [] -> Forall (fun a => p a = false) l.
Proof.
  induction l as [ | a l IH]; simpl; [constructor | ].
  destruct (p a) eqn:E; [discriminate | ]. intros H. constructor; auto.
Qed.

(** The first element a filter keeps, where it stands in the list. *)
Lemma filter_first {A : Type} (p : A -> bool) (l : list A) :
  forall a rest,
    filter p l = a :: rest ->
    exists pre post,
      l = pre ++ a :: post
      /\ Forall (fun b => p b = false) pre /\ p a = true.
Proof.
  induction l as [ | b l IH]; intros a rest H; simpl in H; [discriminate | ].
  destruct (p b) eqn:E.
  - injection H as <- _. exists [], l. repeat split; [constructor | exact E].
  - destruct (IH a rest H) as [pre [post [-> [Hpre Ha]]]].
    exists (b :: pre), post. repeat split; [now constructor | exact Ha].
Qed.

(** The last element a filter keeps, where it stands in the list. *)
Lemma filter_last {A : Type} (p : A -> bool) (l : list A) :
  forall a rest,
    filter p l = a :: rest ->
    exists pre post,
      l = pre ++ last (a :: rest) a :: post
      /\ Forall (fun b => p b = false) post
      /\ p (last (a :: rest) a) = true.
Proof.
  induction l as [ | b l IH]; intros a rest H; simpl in H; [discriminate | ].
  destruct (p b) eqn:E.
  - injection H as <- Hrest.
    destruct rest as [ | c rest'].
    + exists [], l. repeat split; [now apply filter_nil | exact E].
    + destruct (IH c rest' Hrest) as [pre [post [-> [Hpost Hc]]]].
      exists (b :: pre), post.
      change (last (b :: c :: rest') b) with (last (c :: rest') b).
      rewrite (last_cons_default rest' c b), <- (last_cons_default rest' c c).
      repeat split; try assumption; reflexivity.
  - destruct (IH a rest H) as [pre [post [-> [Hpost Ha]]]].
    exists (b :: pre), post. repeat split; try assumption; reflexivity.
Qed.

Lemma group_pred (k : string) (r : IndicatorRecord) :
  match CountryName r with
  | Some n => String.eqb n k
  | None => false
  end = false ->
  CountryName r <> Some k.
Proof.
  destruct (CountryName r) as [n | ]; [ | discriminate].
  intros H Heq. injection Heq as ->. rewrite String.eqb_refl in H.
  discriminate.
Qed.

(** The rows behind a row of the growth table of a frame without NaN
    values: the first and the last row of the country in the frame. *)
Lemma growth_row_ends (filtered : DataFrame) (g : Growth.row) :
  Forall (fun r => Float64.isna (Value r) = false) filtered ->
  In g (growth_df filtered) ->
  (exists pre first post,
      filtered = pre ++ first :: post
      /\ CountryName first = Some (Growth.CountryName g)
      /\ (forall r, In r pre -> CountryName r <> Some (Growth.CountryName g))
      /\ Growth.Initial_Value g = Value first)
  /\ (exists pre final post,
        filtered = pre ++ final :: post
        /\ CountryName final = Some (Growth.CountryName g)
        /\ (forall r, In r post ->
                      CountryName r <> Some (Growth.CountryName g))
        /\ Growth.Final_Value g = Value final).
Proof.
  intros Hna Hg. unfold growth_df in Hg. apply in_map_iff in Hg.
  destruct Hg as [k [<- Hk]].
  cbn [Growth.CountryName Growth.Initial_Value Growth.Final_Value].
  apply group_keys_In in Hk. destruct Hk as [r [Hin Hr]].
  assert (Hgr : In r (group filtered k)) by (apply group_In; auto).
  destruct (group filtered k) as [ | first rest] eqn:Eg; [contradiction | ].
  assert (Hall : Forall (fun r => Float64.isna (Value r) = false)
                        (first :: rest)).
  { rewrite <- Eg. apply Forall_forall. intros a Ha.
    apply group_In in Ha. destruct Ha as [Ha _].
    rewrite Forall_forall in Hna. now apply Hna. }
  destruct (agg_first_last first rest Hall) as [Hf Hl].
  rewrite <- last_cons_default with (d := first) in Hl.
  unfold group in Eg. split.
  - destruct (filter_first _ _ _ _ Eg) as [pre [post [Hsplit [Hpre Hp]]]].
    exists pre, first, post. split; [exact Hsplit | split].
    + destruct (CountryName first) as [n | ]; [ | discriminate].
      apply String.eqb_eq in Hp. now subst.
    + split; [ | exact Hf].
      intros a Ha. rewrite Forall_forall in Hpre.
      now apply group_pred, Hpre.
  - destruct (filter_last _ _ _ _ Eg) as [pre [post [Hsplit [Hpost Hp]]]].
    exists pre, (last (first :: rest) first), post.
    split; [exact Hsplit | split].
    + destruct (CountryName (last (first :: rest) first)) as [n | ];
        [ | discriminate].
      apply String.eqb_eq in Hp. now subst.
    + split; [ | exact Hl].
      intros a Ha. rewrite Forall_forall in Hpost.
      now apply group_pred, Hpost.
Qed.

End GroupRows.

(** C3. For the filtered view of a frame the cleaning returned, the
    growth table has one row per country of the view, in ascending order
    of the names: Initial_Value is the value of the first row of the
    country in the order of the view, Final_Value that of its last row,
    and Total_Growth is (Final_Value / Initial_Value - 1) * 100 in
    float64.  For one country with 100 in 2000 and 150 in 2005 the growth
    is 50.0. *)
Theorem growth_df_spec (py : readers) (raw_data : json)
  (data_df : DataFrame) (selected_countries : list string)
  (start_year : Z) :
  process_world_bank_data py raw_data = Returned data_df ->
  let filtered := filtered_df data_df selected_countries start_year in
  let names := map Growth.CountryName (growth_df filtered) in
  NoDup names
  /\ StronglySorted String_as_OT.lt names
  /\ (forall k, In k names <->
                exists r, In r filtered /\ CountryName r = Some k)
  /\ (forall g, In g (growth_df filtered) ->
        (exists pre first post,
            filtered = pre ++ first :: post
            /\ CountryName first = Some (Growth.CountryName g)
            /\ (forall r, In r pre ->
                          CountryName r <> Some (Growth.CountryName g))
            /\ Growth.Initial_Value g = Value first)
        /\ (exists pre final post,
              filtered = pre ++ final :: post
              /\ CountryName final = Some (Growth.CountryName g)
              /\ (forall r, In r post ->
                            CountryName r <> Some (Growth.CountryName g))
              /\ Growth.Final_Value g = Value final)
        /\ Growth.Total_Growth g
           = Float64.mul
               (Float64.sub
                  (Float64.div (Growth.Final_Value g)
                               (Growth.Initial_Value g))
                  (Float64.of_Z 1))
               (Float64.of_Z 100))
  /\ (forall c code,
        growth_df (growth_example c code)
        = [{| Growth.CountryName := c;
              Growth.Final_Value := Float64.of_Z 150;
              Growth.Initial_Value := Float64.of_Z 100;
              Growth.Total_Growth := Float64.of_Z 50 |}]).
Proof.
  intros Hp filtered names.
  assert (Hnames : names = group_keys filtered) by apply growth_df_names.
  assert (Hsorted : StronglySorted String_as_OT.lt names)
    by (rewrite Hnames; apply group_keys_sorted).
  split; [now apply sorted_lt_NoDup | ].
  split; [exact Hsorted | ].
  split; [intros k; rewrite Hnames; apply group_keys_In | ].
  split.
  - intros g Hg.
    assert (Hna : Forall (fun r => Float64.isna (Value r) = false) filtered).
    { apply Forall_forall. intros r Hr. apply filtered_df_In in Hr.
      pose proof (returned_values_notna py _ _ Hp) as Hv.
      rewrite Forall_forall in Hv. now apply Hv. }
    destruct (growth_row_ends filtered g Hna Hg) as [Hfirst Hlast].
    split; [exact Hfirst | split; [exact Hlast | ]].
    unfold growth_df in Hg. apply in_map_iff in Hg.
    destruct Hg as [k [<- _]]. reflexivity.
  - intros c code. unfold growth_df, growth_example, group_keys, group.
    simpl. rewrite string_compare_refl. simpl.
    rewrite String.eqb_refl. reflexivity.
Qed.

(** In the view of Brazil and Chile from 2000 on, the Brazil row of the
    growth table starts from the 100 of 2000, which no Brazil row comes
    before, and ends at the 150 of 2005, which the two Chile rows come
    after: a growth of 50. *)
Lemma growth_df_spec_witness :
  let filtered :=
    filtered_df two_countries_frame ["Brazil"; "Chile"]%string 2000 in
  let g := {| Growth.CountryName := "Brazil"%string;
              Growth.Final_Value := Float64.of_Z 150;
              Growth.Initial_Value := Float64.of_Z 100;
              Growth.Total_Growth := Float64.of_Z 50 |} in
  (process_world_bank_data plain_readers two_countries_reply
   = Returned two_countries_frame
   /\ In g (growth_df filtered))
  /\ (exists pre first post,
         filtered = pre ++ first :: post
         /\ CountryName first = Some (Growth.CountryName g)
         /\ (forall r, In r pre ->
                       CountryName r <> Some (Growth.CountryName g))
         /\ Growth.Initial_Value g = Value first)
  /\ (exists pre final post,
         filtered = pre ++ final :: post
         /\ CountryName final = Some (Growth.CountryName g)
         /\ (forall r, In r post ->
                       CountryName r <> Some (Growth.CountryName g))
         /\ Growth.Final_Value g = Value final)
  /\ Growth.Total_Growth g
     = Float64.mul
         (Float64.sub
            (Float64.div (Growth.Final_Value g) (Growth.Initial_Value g))
            (Float64.of_Z 1))
         (Float64.of_Z 100).
Proof.
  intros filtered g.
  assert (Hg : In g (growth_df filtered)) by (left; reflexivity).
  split; [split; [reflexivity | exact Hg] | ].
  exact (proj1 (proj2 (proj2 (proj2
    (growth_df_spec plain_readers two_countries_reply two_countries_frame
                    ["Brazil"; "Chile"]%string 2000 eq_refl)))) g Hg).
Defined.

(** C4. A row of the growth table whose Initial_Value is zero has a
    Total_Growth that is an infinity or NaN, and so not a finite number;
    the table is computed all the same, nothing is raised. *)
Theorem growth_zero_initial (filtered : DataFrame) (g : Growth.row) :
  In g (growth_df filtered) ->
  Float64.is_zero (Growth.Initial_Value g) = true ->
  (Float64.is_inf (Growth.Total_Growth g) = true
   \/ Float64.isna (Growth.Total_Growth g) = true)
  /\ Float64.is_finite (Growth.Total_Growth g) = false.
Proof.
  intros Hg Hz. unfold growth_df in Hg. apply in_map_iff in Hg.
  destruct Hg as [k [<- _]]. simpl in *.
  destruct (agg_first (map Value (group filtered k))) as [s | | | ];
    try discriminate.
  pose proof (total_growth_zero (agg_last (map Value (group filtered k))) s)
    as Ht. simpl in Ht.
  split; [exact Ht | ].
  destruct (total_growth _ _); simpl in *; destruct Ht; congruence.
Qed.

Lemma growth_zero_initial_witness :
  let filtered := [{| CountryName := Some "Peru"%string;
                      CountryCode := Some "PER"%string;
                      Year := 2000; Value := S754_zero false |};
                   {| CountryName := Some "Peru"%string;
                      CountryCode := Some "PER"%string;
                      Year := 2001; Value := Float64.of_Z 7 |}] in
  let g := {| Growth.CountryName := "Peru"%string;
              Growth.Final_Value := Float64.of_Z 7;
              Growth.Initial_Value := S754_zero false;
              Growth.Total_Growth := S754_infinity false |} in
  (In g (growth_df filtered)
   /\ Float64.is_zero (Growth.Initial_Value g) = true)
  /\ (Float64.is_inf (Growth.Total_Growth g) = true
      \/ Float64.isna (Growth.Total_Growth g) = true)
  /\ Float64.is_finite (Growth.Total_Growth g) = false.
Proof.
  intros filtered g. split.
  - split; [left; reflexivity | reflexivity].
  - apply (growth_zero_initial filtered g); [left; reflexivity | reflexivity].
Defined.

(** ** The loader *)

(** C2, as the specification states it, fails: a response with status
    203, a success status, is answered with an error notice and the empty
    frame although its body cleans to a row; and under status 200 the
    reply without data makes the loader raise [KeyError]. *)
Lemma load_data_not_as_claimed :
  load_data plain_readers (Response 203 (Json end_to_end_envelope))
  = (Returned [], [st_error "Error al conectar con la API: Código 203"])
  /\ process_world_bank_data plain_readers end_to_end_envelope
     = Returned [{| CountryName := Some "Brazil"%string;
                    CountryCode := Some "BRA"%string;
                    Year := 2020; Value := float_8523_1 |}]
  /\ load_data plain_readers (Response 200 (Json no_data_reply))
     = (Raised (KeyError "country"), []).
Proof. repeat split. Qed.

(** C2, amended.  The loader hands the decoded body to the cleaning and
    emits no notice exactly when the status is 200 and the body decodes;
    what it returns then is what the cleaning makes of the body.  On any
    other status, in particular 500, it emits exactly one error notice,
    which names the status, and returns the empty frame; on a failure of
    the network layer it emits exactly one connection-error notice and
    returns the empty frame. *)
Theorem load_data_outcomes (py : readers) :
  (forall data,
      load_data py (Response 200 (Json data))
      = (process_world_bank_data py data, []))
  /\ (forall got,
        snd (load_data py got) = [] <->
        exists data, got = Response 200 (Json data))
  /\ (forall status_code body,
        status_code <> 200 ->
        load_data py (Response status_code body)
        = (Returned [],
           [st_error ("Error al conectar con la API: Código "
                      ++ str status_code)%string]))
  /\ load_data py (Response 500 (NotJson "Internal Server Error"))
     = (Returned [], [st_error "Error al conectar con la API: Código 500"])
  /\ (forall e,
        load_data py (RequestException e)
        = (Returned [], [st_error ("Error de conexión: " ++ e)%string])).
Proof.
  split; [reflexivity | ].
  split.
  - intros got. split.
    + destruct got as [e | status_code body]; simpl; [discriminate | ].
      destruct (status_code =? 200) eqn:E; [ | discriminate].
      apply Z.eqb_eq in E. subst status_code.
      destruct body as [data | e]; [eauto | discriminate].
    + intros [data ->]. reflexivity.
  - split; [ | split; [reflexivity | reflexivity]].
    intros status_code body Hne. simpl.
    destruct (status_code =? 200) eqn:E; [ | reflexivity].
    apply Z.eqb_eq in E. contradiction.
Qed.

Lemma load_data_outcomes_witness :
  503 <> 200
  /\ load_data plain_readers (Response 503 (NotJson "Service Unavailable"))
     = (Returned [], [st_error "Error al conectar con la API: Código 503"]).
Proof.
  split; [discriminate | ].
  apply (proj1 (proj2 (proj2 (load_data_outcomes plain_readers)))).
  discriminate.
Defined.

(** ** Further properties of the cleaning routine *)


(** X2. When no record of the second element carries the country key the
    cleaning raises [KeyError('country')]; so it does on the empty list
    of records, on [null] and on the empty object. *)
Theorem process_no_country_column (py : readers) (x : element)
  (rest : list element) :
  (forall rs,
      Forall (fun r => country r = Absent) rs ->
      process_world_bank_data py (JList (x :: Records rs :: rest))
      = Raised (KeyError "country"))
  /\ process_world_bank_data py (JList (x :: Plain (Scalar SNull) :: rest))
     = Raised (KeyError "country")
  /\ process_world_bank_data py (JList (x :: Plain (Object []) :: rest))
     = Raised (KeyError "country").
Proof.
  split; [ | split; reflexivity].
  intros rs Hall.
  unfold process_world_bank_data. cbn [pd_DataFrame bind]. unfold getitem.
  assert (E : existsb (fun r => carries (country r)) rs = false).
  { induction Hall as [ | r rs Hr _ IH]; simpl; [reflexivity | ].
    now rewrite Hr, IH. }
  now rewrite E.
Qed.

Lemma process_no_country_column_witness :
  Forall (fun r => country r = Absent) [no_country_key]
  /\ process_world_bank_data plain_readers
       (JList [page_meta; Records [no_country_key]])
     = Raised (KeyError "country").
Proof.
  split.
  - repeat constructor.
  - apply (proj1 (process_no_country_column plain_readers page_meta [])).
    repeat constructor.
Defined.

(** X3. When some record carries the country key and another lacks it,
    the cleaning raises [AttributeError], whatever the other cells
    hold. *)
Theorem process_country_key_missing (py : readers) (x : element)
  (rs : list raw_record) (rest : list element) :
  (exists r, In r rs /\ country r <> Absent) ->
  (exists r, In r rs /\ country r = Absent) ->
  process_world_bank_data py (JList (x :: Records rs :: rest))
  = Raised AttributeError.
Proof.
  intros Hsome [r [Hin Habs]].
  unfold process_world_bank_data. cbn [pd_DataFrame bind]. unfold getitem.
  rewrite (proj2 (existsb_carries country rs) Hsome). cbn [bind].
  rewrite (apply_raises (get_value _) AttributeError).
  - reflexivity.
  - intros [ | | [c | t | t]] e'; simpl; intros H;
      repeat match type of H with
             | context [if ?b then _ else _] => destruct b
             end; congruence.
  - exists Absent. split; [ | discriminate].
    rewrite <- Habs. now apply in_map.
Qed.

Lemma process_country_key_missing_witness :
  ((exists r, In r [brazil_2020; no_country_key] /\ country r <> Absent)
   /\ (exists r, In r [brazil_2020; no_country_key] /\ country r = Absent))
  /\ process_world_bank_data plain_readers
       (JList [page_meta; Records [brazil_2020; no_country_key]])
     = Raised AttributeError.
Proof.
  assert (H1 : exists r, In r [brazil_2020; no_country_key]
                         /\ country r <> Absent).
  { exists brazil_2020. split; [now left | discriminate]. }
  assert (H2 : exists r, In r [brazil_2020; no_country_key]
                         /\ country r = Absent).
  { exists no_country_key. split; [right; now left | reflexivity]. }
  split; [split; assumption | ].
  exact (process_country_key_missing plain_readers page_meta _ [] H1 H2).
Defined.

(** X4. When the lambda returns on every country cell and some record
    carries the code key, one date cell that [astype(int)] rejects (a
    text that does not read as a 64-bit integer, [null], or a missing key
    beside records that have it) makes the cleaning raise the error of
    [astype(int)]: no row is returned, not even those of the other
    records. *)
Theorem process_bad_year (py : readers) (x : element)
  (rs : list raw_record) (rest : list element) :
  (forall r, In r rs ->
     exists n, get_value (numeric_of py rs) (country r) = Returned n) ->
  (exists r, In r rs /\ countryiso3code r <> Absent) ->
  (exists r, In r rs /\ date r <> Absent) ->
  (exists r, In r rs /\ forall z, to_int py (date r) <> Returned z) ->
  process_world_bank_data py (JList (x :: Records rs :: rest))
  = Raised CastError.
Proof.
  intros Hcountry Hcode Hdate [r [Hin Hbad]].
  unfold process_world_bank_data. cbn [pd_DataFrame bind]. unfold getitem.
  assert (Hc : exists r, In r rs /\ country r <> Absent).
  { exists r. split; [exact Hin | ]. destruct (Hcountry r Hin) as [n Hn].
    intros Habs. rewrite Habs in Hn. discriminate. }
  rewrite (proj2 (existsb_carries country rs) Hc). cbn [bind].
  fold (numeric_of py rs).
  destruct (apply_returns (get_value (numeric_of py rs)) (map country rs))
    as [names ->].
  { intros c Hcell. apply in_map_iff in Hcell.
    destruct Hcell as [r' [<- Hr']]. now apply Hcountry. }
  cbn [bind].
  rewrite (proj2 (existsb_carries countryiso3code rs) Hcode). cbn [bind].
  rewrite (proj2 (existsb_carries date rs) Hdate). cbn [bind].
  rewrite (apply_raises (to_int py) CastError).
  - reflexivity.
  - intros d e'. unfold to_int. destruct d as [ | | s]; try congruence.
    destruct (Py.int (int_other py) s); [ | congruence].
    destruct ((int64_min <=? z) && (z <=? int64_max)); congruence.
  - exists (date r). split; [now apply in_map | exact Hbad].
Qed.

Lemma process_bad_year_witness :
  let rs := [brazil_2020; chile_bad_year] in
  ((forall r, In r rs ->
      exists n, get_value (numeric_of plain_readers rs) (country r)
                = Returned n)
   /\ (exists r, In r rs /\ countryiso3code r <> Absent)
   /\ (exists r, In r rs /\ date r <> Absent)
   /\ (exists r, In r rs
                 /\ forall z, to_int plain_readers (date r) <> Returned z))
  /\ process_world_bank_data plain_readers (JList [page_meta; Records rs])
     = Raised CastError.
Proof.
  intros rs.
  assert (H1 : forall r, In r rs ->
             exists n, get_value (numeric_of plain_readers rs) (country r)
                       = Returned n).
  { intros r [<- | [<- | []]]; eexists; reflexivity. }
  assert (H2 : exists r, In r rs /\ countryiso3code r <> Absent).
  { exists brazil_2020. split; [now left | discriminate]. }
  assert (H3 : exists r, In r rs /\ date r <> Absent).
  { exists brazil_2020. split; [now left | discriminate]. }
  assert (H4 : exists r, In r rs
                         /\ forall z, to_int plain_readers (date r)
                                      <> Returned z).
  { exists chile_bad_year. split; [right; now left | discriminate]. }
  split; [repeat split; assumption | ].
  exact (process_bad_year plain_readers page_meta rs [] H1 H2 H3 H4).
Defined.

Section CleanedFrame.

Lemma sort_values_sorted_id (df : DataFrame) :
  StronglySorted key_le df -> sort_values df = df.
Proof.
  induction 1 as [ | r df Hs IH Hall]; simpl; [reflexivity | ].
  fold (sort_values df). rewrite IH.
  destruct Hall as [ | r' df' Hr _]; simpl; [reflexivity | ].
  unfold key_le in Hr. now rewrite Hr.
Qed.

Lemma filter_length {A : Type} (p : A -> bool) (l : list A) :
  (List.length (filter p l) <= List.length l)%nat.
Proof.
  induction l as [ | a l IH]; simpl; [lia | ].
  destruct (p a); simpl; lia.
Qed.

Lemma Forall2_same_length {A B : Type} (R : A -> B -> Prop) (l : list A)
  (l' : list B) :
  Forall2 R l l' -> List.length l = List.length l'.
Proof. induction 1; simpl; congruence. Qed.

End CleanedFrame.

(** X5. A frame the cleaning returned is unchanged by dropping null
    values and names again and by sorting again: both steps of the
    cleaning are the identity on its output. *)
Theorem cleaned_fixed_point (py : readers) (raw_data : json)
  (df : DataFrame) :
  process_world_bank_data py raw_data = Returned df ->
  dropna df = df /\ sort_values df = df.
Proof.
  intros H. destruct (process_returned py _ _ H) as [rs [rows [_ ->]]].
  split.
  - apply filter_all.
    eapply Permutation_Forall; [apply Permutation_sym, sort_values_perm | ].
    apply Forall_forall. intros r Hr. unfold dropna in Hr.
    now apply filter_In in Hr.
  - apply sort_values_sorted_id, sort_values_sorted.
Qed.

Lemma cleaned_fixed_point_witness :
  process_world_bank_data plain_readers two_countries_reply
  = Returned two_countries_frame
  /\ dropna two_countries_frame = two_countries_frame
  /\ sort_values two_countries_frame = two_countries_frame.
Proof.
  split; [reflexivity | ].
  apply (cleaned_fixed_point plain_readers two_countries_reply
           two_countries_frame).
  reflexivity.
Defined.

(** X6. The cleaning invents nothing: the frame it returns for a list of
    records has at most as many rows as there are records, and each row
    comes from one of the records: its name is what the lambda makes of
    that record's country cell, its code that record's code, its year
    that record's date read as a 64-bit integer, and its value that
    record's value cell as the numeric column holds it. *)
Theorem process_rows_from_records (py : readers) (x : element)
  (rs : list raw_record) (rest : list element) (df : DataFrame) :
  process_world_bank_data py (JList (x :: Records rs :: rest))
  = Returned df ->
  (List.length df <= List.length rs)%nat
  /\ forall row, In row df ->
       exists r,
         In r rs
         /\ get_value (numeric_of py rs) (country r)
            = Returned (CountryName row)
         /\ CountryCode row = code_cell (countryiso3code r)
         /\ to_int py (date r) = Returned (Year row)
         /\ Value row
            = value_view (ints_of py rs) (cell_reading py (value r)).
Proof.
  intros H. apply process_rows_inv in H.
  destruct H as [_ [_ [rows [Hrows ->]]]].
  apply apply_Forall2 in Hrows. split.
  - rewrite (Permutation_length (sort_values_perm _)).
    rewrite (Forall2_same_length _ _ _ Hrows). apply filter_length.
  - intros row Hin.
    apply (Permutation_in _ (sort_values_perm _)) in Hin.
    unfold dropna in Hin. apply filter_In in Hin. destruct Hin as [Hin _].
    destruct (Forall2_In_right _ _ _ _ Hrows Hin) as [r [Hr Hc]].
    exists r. split; [exact Hr | ].
    now apply clean_row_fields in Hc.
Qed.

(** Of the five sparse records two are dropped; the Chile row that is
    kept comes from the record without a code. *)
Lemma process_rows_from_records_witness :
  let df := [row "Brazil" "BRA" 2020 float_8523_1;
             {| CountryName := Some "Chile"%string; CountryCode := None;
                Year := 2018; Value := Float64.of_Z 14000 |}] in
  process_world_bank_data plain_readers
    (JList [page_meta; Records sparse_records])
  = Returned df
  /\ (List.length df <= List.length sparse_records)%nat
  /\ forall row, In row df ->
       exists r,
         In r sparse_records
         /\ get_value (numeric_of plain_readers sparse_records) (country r)
            = Returned (CountryName row)
         /\ CountryCode row = code_cell (countryiso3code r)
         /\ to_int plain_readers (date r) = Returned (Year row)
         /\ Value row
            = value_view (ints_of plain_readers sparse_records)
                         (cell_reading plain_readers (value r)).
Proof.
  intros df. split; [reflexivity | ].
  exact (process_rows_from_records plain_readers page_meta sparse_records
           [] df eq_refl).
Defined.

(** ** Further properties of the growth table *)

Section GrowthRows.

Lemma growth_row_group (filtered : DataFrame) (g : Growth.row) :
  Forall (fun r => Float64.isna (Value r) = false) filtered ->
  In g (growth_df filtered) ->
  exists first rest,
    group filtered (Growth.CountryName g) = first :: rest
    /\ Growth.Initial_Value g = Value first
    /\ Growth.Final_Value g = Value (last (first :: rest) first).
Proof.
  intros Hna Hg. unfold growth_df in Hg. apply in_map_iff in Hg.
  destruct Hg as [k [<- Hk]].
  cbn [Growth.CountryName Growth.Initial_Value Growth.Final_Value].
  apply group_keys_In in Hk. destruct Hk as [r [Hin Hr]].
  assert (Hgr : In r (group filtered k)) by (apply group_In; auto).
  destruct (group filtered k) as [ | first rest] eqn:Eg; [contradiction | ].
  exists first, rest.
  assert (Hall : Forall (fun r => Float64.isna (Value r) = false)
                        (first :: rest)).
  { rewrite <- Eg. apply Forall_forall. intros a Ha.
    apply group_In in Ha. destruct Ha as [Ha _].
    rewrite Forall_forall in Hna. now apply Hna. }
  destruct (agg_first_last first rest Hall) as [Hf Hl].
  rewrite last_cons_default. auto.
Qed.

Lemma last_cons_In {A : Type} (l : list A) :
  forall a, In (last (a :: l) a) (a :: l).
Proof.
  induction l as [ | b l IH]; intros a; [now left | ].
  change (last (a :: b :: l) a) with (last (b :: l) a).
  right. rewrite last_cons_default, <- (last_cons_default l b b). apply IH.
Qed.

(** In a strongly sorted list every element is the last one or related
    to it. *)
Lemma sorted_last {A : Type} (R : A -> A -> Prop) (l : list A) :
  forall a, StronglySorted R (a :: l) ->
    forall b, In b (a :: l) -> b = last (a :: l) a \/ R b (last (a :: l) a).
Proof.
  induction l as [ | c l IH]; intros a Hs b Hb.
  - destruct Hb as [<- | []]. now left.
  - change (last (a :: c :: l) a) with (last (c :: l) a).
    rewrite last_cons_default, <- (last_cons_default l c c).
    inversion Hs as [ | ? ? Hs' Hall]; subst.
    destruct Hb as [<- | Hb].
    + right. rewrite Forall_forall in Hall. apply Hall, last_cons_In.
    + now apply IH.
Qed.

End GrowthRows.

(** X7. In the growth table of a filtered view of cleaned data,
    Initial_Value is the value of a row of the country's earliest year in
    the view and Final_Value the value of a row of its latest year: no
    row of the country in the view has a year before the one or after the
    other. *)
Theorem growth_first_last_year (py : readers) (raw_data : json)
  (data_df : DataFrame) (selected_countries : list string)
  (start_year : Z) (g : Growth.row) :
  process_world_bank_data py raw_data = Returned data_df ->
  In g (growth_df (filtered_df data_df selected_countries start_year)) ->
  exists first final,
    In first (filtered_df data_df selected_countries start_year)
    /\ In final (filtered_df data_df selected_countries start_year)
    /\ CountryName first = Some (Growth.CountryName g)
    /\ CountryName final = Some (Growth.CountryName g)
    /\ Growth.Initial_Value g = Value first
    /\ Growth.Final_Value g = Value final
    /\ forall r,
         In r (filtered_df data_df selected_countries start_year) ->
         CountryName r = Some (Growth.CountryName g) ->
         Year first <= Year r <= Year final.
Proof.
  intros Hp Hg.
  set (filtered := filtered_df data_df selected_countries start_year) in *.
  assert (Hna : Forall (fun r => Float64.isna (Value r) = false) filtered).
  { apply Forall_forall. intros r Hr. apply filtered_df_In in Hr.
    pose proof (returned_values_notna py _ _ Hp) as Hv.
    rewrite Forall_forall in Hv. now apply Hv. }
  destruct (growth_row_group filtered g Hna Hg)
    as [first [rest [Eg [Hi Hf]]]].
  set (k := Growth.CountryName g) in *.
  assert (Hsorted : StronglySorted key_le (first :: rest)).
  { rewrite <- Eg. unfold group, filtered, filtered_df.
    apply filter_sorted, filter_sorted.
    destruct (process_returned py _ _ Hp) as [rs [rows [_ ->]]].
    apply sort_values_sorted. }
  assert (Hgrp : forall r, In r (first :: rest) <->
                           In r filtered /\ CountryName r = Some k).
  { intros r. rewrite <- Eg. apply group_In. }
  pose proof (last_cons_In rest first) as Hlast.
  exists first, (last (first :: rest) first).
  destruct (proj1 (Hgrp first) (or_introl eq_refl)) as [Hf1 Hf2].
  destruct (proj1 (Hgrp _) Hlast) as [Hl1 Hl2].
  repeat split; try assumption.
  - assert (Hr : In r (first :: rest)) by (apply Hgrp; auto).
    destruct Hr as [<- | Hr]; [lia | ].
    inversion Hsorted as [ | ? ? _ Hall]; subst.
    rewrite Forall_forall in Hall.
    apply key_le_same_name; [now apply Hall | congruence].
  - assert (Hr : In r (first :: rest)) by (apply Hgrp; auto).
    destruct (sorted_last key_le rest first Hsorted r Hr) as [<- | Hle];
      [lia | ].
    apply key_le_same_name; [exact Hle | congruence].
Qed.

(** In the view of Brazil and Chile from 2000 on, the Brazil row of the
    growth table runs from the row of 2000 to the row of 2005. *)
Lemma growth_first_last_year_witness :
  let filtered :=
    filtered_df two_countries_frame ["Brazil"; "Chile"]%string 2000 in
  let g := {| Growth.CountryName := "Brazil"%string;
              Growth.Final_Value := Float64.of_Z 150;
              Growth.Initial_Value := Float64.of_Z 100;
              Growth.Total_Growth := Float64.of_Z 50 |} in
  (process_world_bank_data plain_readers two_countries_reply
   = Returned two_countries_frame
   /\ In g (growth_df filtered))
  /\ exists first final,
       In first filtered
       /\ In final filtered
       /\ CountryName first = Some (Growth.CountryName g)
       /\ CountryName final = Some (Growth.CountryName g)
       /\ Growth.Initial_Value g = Value first
       /\ Growth.Final_Value g = Value final
       /\ forall r,
            In r filtered ->
            CountryName r = Some (Growth.CountryName g) ->
            Year first <= Year r <= Year final.
Proof.
  intros filtered g.
  assert (Hg : In g (growth_df filtered)) by (left; reflexivity).
  split; [split; [reflexivity | exact Hg] | ].
  exact (growth_first_last_year plain_readers two_countries_reply
           two_countries_frame ["Brazil"; "Chile"]%string 2000 g
           eq_refl Hg).
Defined.

(** X8. The growth table of a filtered view names selected countries
    only, each once: it has at most as many rows as countries are
    selected; every country named has a row in the view. *)
Theorem growth_within_selection (data_df : DataFrame)
  (selected_countries : list string) (start_year : Z) (g : Growth.row) :
  In g (growth_df (filtered_df data_df selected_countries start_year)) ->
  In (Growth.CountryName g) selected_countries
  /\ (exists r, In r data_df
                /\ CountryName r = Some (Growth.CountryName g)
                /\ start_year <= Year r)
  /\ (List.length
        (growth_df (filtered_df data_df selected_countries start_year))
      <= List.length selected_countries)%nat.
Proof.
  intros Hg.
  set (filtered := filtered_df data_df selected_countries start_year) in *.
  assert (Hkeys : forall k, In k (group_keys filtered) ->
            In k selected_countries
            /\ exists r, In r data_df /\ CountryName r = Some k
                         /\ start_year <= Year r).
  { intros k Hk. apply group_keys_In in Hk. destruct Hk as [r [Hr Hn]].
    apply filtered_df_In in Hr. destruct Hr as [Hin [[s [Hs Hsel]] Hy]].
    split; [congruence | eauto]. }
  assert (Hk : In (Growth.CountryName g) (group_keys filtered)).
  { rewrite <- growth_df_names. now apply in_map. }
  destruct (Hkeys _ Hk) as [H1 H2].
  split; [exact H1 | split; [exact H2 | ]].
  rewrite <- (length_map Growth.CountryName), growth_df_names.
  apply NoDup_incl_length.
  - apply sorted_lt_NoDup, group_keys_sorted.
  - intros k Hk'. now apply Hkeys.
Qed.

Lemma growth_within_selection_witness :
  let data_df := growth_example "Peru" None in
  let g := {| Growth.CountryName := "Peru"%string;
              Growth.Final_Value := Float64.of_Z 150;
              Growth.Initial_Value := Float64.of_Z 150;
              Growth.Total_Growth := S754_zero false |} in
  In g (growth_df (filtered_df data_df ["Peru"; "Chile"]%string 2003))
  /\ In (Growth.CountryName g) ["Peru"; "Chile"]%string.
Proof.
  intros data_df g.
  assert (Hg : In g (growth_df
                       (filtered_df data_df ["Peru"; "Chile"]%string 2003)))
    by (left; reflexivity).
  split; [exact Hg | ].
  exact (proj1 (growth_within_selection data_df _ 2003 g Hg)).
Defined.

(** ** Further properties of the filter *)

Section FilterAlgebra.

Lemma filter_compose {A : Type} (p q : A -> bool) (l : list A) :
  filter p (filter q l) = filter (fun a => q a && p a) l.
Proof.
  induction l as [ | a l IH]; simpl; [reflexivity | ].
  destruct (q a); simpl; [ | exact IH].
  destruct (p a); now rewrite IH.
Qed.

Lemma isin_both (n : option string) (s1 s2 : list string) :
  isin n (filter (fun c => existsb (String.eqb c) s2) s1)
  = isin n s1 && isin n s2.
Proof.
  apply eq_iff_eq_true.
  rewrite andb_true_iff, !isin_spec. split.
  - intros [s [Hn Hin]]. apply filter_In in Hin. destruct Hin as [H1 H2].
    apply existsb_exists in H2. destruct H2 as [c [Hc Heq]].
    apply String.eqb_eq in Heq. subst c. split; exists s; auto.
  - intros [[s [Hn H1]] [s' [Hn' H2]]].
    assert (s' = s) by congruence. subst s'.
    exists s. split; [exact Hn | ].
    apply filter_In. split; [exact H1 | ].
    apply existsb_exists. exists s. split; [exact H2 | apply String.eqb_refl].
Qed.

End FilterAlgebra.

(** X9. Filtering a filtered view again is filtering the loaded frame
    once, with the countries selected both times and the later of the two
    start years; the order of two filters does not matter. *)
Theorem filtered_df_compose (data_df : DataFrame)
  (selected1 selected2 : list string) (start1 start2 : Z) :
  filtered_df (filtered_df data_df selected1 start1) selected2 start2
  = filtered_df data_df
      (filter (fun c => existsb (String.eqb c) selected2) selected1)
      (Z.max start1 start2)
  /\ filtered_df (filtered_df data_df selected1 start1) selected2 start2
     = filtered_df (filtered_df data_df selected2 start2) selected1 start1.
Proof.
  unfold filtered_df. rewrite !filter_compose. split.
  - apply filter_ext. intros r. rewrite isin_both.
    assert (E : (Z.max start1 start2 <=? Year r)
                = (start1 <=? Year r) && (start2 <=? Year r)).
    { apply eq_iff_eq_true. rewrite andb_true_iff, !Z.leb_le. lia. }
    rewrite E.
    destruct (isin (CountryName r) selected1),
             (isin (CountryName r) selected2),
             (start1 <=? Year r), (start2 <=? Year r); reflexivity.
  - apply filter_ext. intros r.
    destruct (isin (CountryName r) selected1),
             (isin (CountryName r) selected2),
             (start1 <=? Year r), (start2 <=? Year r); reflexivity.
Qed.

(** ** The years of the loaded frame *)

Section Years.

Lemma fold_min_spec (ys : list Z) :
  forall y,
    In (fold_left Z.min ys y) (y :: ys)
    /\ forall z, In z (y :: ys) -> fold_left Z.min ys y <= z.
Proof.
  induction ys as [ | a ys IH]; intros y; simpl.
  - split; [now left | intros z [<- | []]; lia].
  - destruct (IH (Z.min y a)) as [Hin Hle]. split.
    + destruct Hin as [Hm | Hin]; [ | now right; right].
      rewrite <- Hm. destruct (Z.min_spec y a) as [[_ ->] | [_ ->]]; auto.
    + intros z Hz.
      assert (Hmin : fold_left Z.min ys (Z.min y a) <= Z.min y a)
        by (apply Hle; now left).
      destruct Hz as [<- | [<- | Hz]]; [lia | lia | ].
      apply Hle. now right.
Qed.

Lemma fold_max_spec (ys : list Z) :
  forall y,
    In (fold_left Z.max ys y) (y :: ys)
    /\ forall z, In z (y :: ys) -> z <= fold_left Z.max ys y.
Proof.
  induction ys as [ | a ys IH]; intros y; simpl.
  - split; [now left | intros z [<- | []]; lia].
  - destruct (IH (Z.max y a)) as [Hin Hle]. split.
    + destruct Hin as [Hm | Hin]; [ | now right; right].
      rewrite <- Hm. destruct (Z.max_spec y a) as [[_ ->] | [_ ->]]; auto.
    + intros z Hz.
      assert (Hmax : Z.max y a <= fold_left Z.max ys (Z.max y a))
        by (apply Hle; now left).
      destruct Hz as [<- | [<- | Hz]]; [lia | lia | ].
      apply Hle. now right.
Qed.

Lemma In_year (data_df : DataFrame) (y : Z) :
  In y (map Year data_df) <-> exists r, In r data_df /\ Year r = y.
Proof.
  rewrite in_map_iff. split; intros [r [H1 H2]]; exists r; auto.
Qed.

End Years.

(** X10. On a frame with rows the earliest and the latest year exist and
    bound the year of every row, each is the year of some row, and the
    frame of the latest year, over which the average is taken, has at
    least one row: it is the map snapshot of that year. *)
Theorem year_bounds (data_df : DataFrame) :
  data_df <> [] ->
  exists lo hi,
    min_year_available data_df = Some lo
    /\ max_year_available data_df = Some hi
    /\ (forall r, In r data_df -> lo <= Year r <= hi)
    /\ (exists r, In r data_df /\ Year r = lo)
    /\ (exists r, In r data_df /\ Year r = hi)
    /\ last_year_data data_df = df_map data_df hi
    /\ last_year_data data_df <> [].
Proof.
  intros Hne. unfold last_year_data, min_year_available, max_year_available.
  destruct data_df as [ | r0 df]; [congruence | ].
  cbn [map].
  destruct (fold_min_spec (map Year df) (Year r0)) as [Hmin_in Hmin].
  destruct (fold_max_spec (map Year df) (Year r0)) as [Hmax_in Hmax].
  set (lo := fold_left Z.min (map Year df) (Year r0)) in *.
  set (hi := fold_left Z.max (map Year df) (Year r0)) in *.
  change (Year r0 :: map Year df) with (map Year (r0 :: df)) in *.
  exists lo, hi.
  split; [reflexivity | split; [reflexivity | ]].
  split.
  { intros r Hr. split; [apply Hmin | apply Hmax]; now apply in_map. }
  split; [now apply In_year | ].
  split; [now apply In_year | ].
  split; [reflexivity | ].
  apply In_year in Hmax_in. destruct Hmax_in as [r [Hr Hy]].
  intros Hempty.
  assert (Hin : In r (filter (fun r => Year r =? hi) (r0 :: df))).
  { apply filter_In. split; [exact Hr | now apply Z.eqb_eq]. }
  rewrite Hempty in Hin. contradiction.
Qed.

Lemma year_bounds_witness :
  growth_example "Peru" None <> []
  /\ exists lo hi,
       min_year_available (growth_example "Peru" None) = Some lo
       /\ max_year_available (growth_example "Peru" None) = Some hi
       /\ (forall r, In r (growth_example "Peru" None) ->
                     lo <= Year r <= hi)
       /\ (exists r, In r (growth_example "Peru" None) /\ Year r = lo)
       /\ (exists r, In r (growth_example "Peru" None) /\ Year r = hi)
       /\ last_year_data (growth_example "Peru" None)
          = df_map (growth_example "Peru" None) hi
       /\ last_year_data (growth_example "Peru" None) <> [].
Proof.
  split; [discriminate | ].
  apply (year_bounds (growth_example "Peru" None)). discriminate.
Defined.

(** ** Sorted lists of distinct cells *)

Section SortedBy.

Context {A : Type}.
Variable leb : A -> A -> bool.
Hypothesis leb_total : forall a b, leb a b = false -> leb b a = true.
Hypothesis leb_trans :
  forall a b c, leb a b = true -> leb b c = true -> leb a c = true.

Lemma insert_by_perm (a : A) (l : list A) :
  Permutation (insert_by leb a l) (a :: l).
Proof.
  induction l as [ | b l IH]; simpl; [apply Permutation_refl | ].
  destruct (leb a b); [apply Permutation_refl | ].
  eapply perm_trans; [apply perm_skip, IH | apply perm_swap].
Qed.

Lemma sorted_by_perm (l : list A) : Permutation (sorted_by leb l) l.
Proof.
  induction l as [ | a l IH]; simpl; [constructor | ].
  eapply perm_trans; [apply insert_by_perm | now apply perm_skip].
Qed.

Lemma insert_by_sorted (a : A) (l : list A) :
  StronglySorted (fun x y => leb x y = true) l ->
  StronglySorted (fun x y => leb x y = true) (insert_by leb a l).
Proof.
  induction 1 as [ | b l Hs IH Hall]; simpl; [repeat constructor | ].
  destruct (leb a b) eqn:E.
  - constructor; [now constructor | ].
    constructor; [exact E | ].
    eapply Forall_impl; [ | exact Hall]. intros c Hc. now apply leb_trans with b.
  - constructor; [exact IH | ].
    eapply Permutation_Forall; [apply Permutation_sym, insert_by_perm | ].
    constructor; [now apply leb_total | exact Hall].
Qed.

Lemma sorted_by_sorted (l : list A) :
  StronglySorted (fun x y => leb x y = true) (sorted_by leb l).
Proof.
  induction l as [ | a l IH]; simpl; [constructor | ].
  now apply insert_by_sorted.
Qed.

End SortedBy.

Section Unique.

Context {A : Type}.
Variable eqb : A -> A -> bool.
Hypothesis eqb_eq : forall a b, eqb a b = true <-> a = b.

Lemma existsb_eqb (a : A) (l : list A) :
  existsb (eqb a) l = true <-> In a l.
Proof.
  rewrite existsb_exists. split.
  - intros [b [Hb Heq]]. apply eqb_eq in Heq. now subst.
  - intros Hin. exists a. split; [exact Hin | now apply eqb_eq].
Qed.

Lemma unique_from_In (l : list A) :
  forall seen a,
    In a (unique_from eqb seen l) <-> In a l /\ ~ In a seen.
Proof.
  induction l as [ | b l IH]; intros seen a; simpl.
  - tauto.
  - destruct (existsb (eqb b) seen) eqn:E.
    + apply existsb_eqb in E. rewrite IH. split.
      * intros [H1 H2]. auto.
      * intros [[<- | H1] H2]; [contradiction | auto].
    + assert (Hb : ~ In b seen).
      { intros Hin. apply existsb_eqb in Hin. congruence. }
      simpl. rewrite IH. simpl. split.
      * intros [<- | [H1 H2]]; [auto | ]. split; [auto | tauto].
      * intros [[<- | H1] H2]; [now left | ].
        destruct (eqb b a) eqn:Eba.
        -- apply eqb_eq in Eba. now left.
        -- right. split; [exact H1 | ].
           intros [<- | H3]; [ | contradiction].
           assert (eqb b b = true) by now apply eqb_eq. congruence.
Qed.

Lemma unique_from_NoDup (l : list A) :
  forall seen, NoDup (unique_from eqb seen l).
Proof.
  induction l as [ | b l IH]; intros seen; simpl; [constructor | ].
  destruct (existsb (eqb b) seen); [apply IH | ].
  constructor; [ | apply IH].
  rewrite unique_from_In. simpl. tauto.
Qed.

Lemma unique_In (l : list A) (a : A) : In a (unique eqb l) <-> In a l.
Proof. unfold unique. rewrite unique_from_In. simpl. tauto. Qed.

End Unique.

Section Strict.

Lemma sorted_NoDup_strict {A : Type} (R : A -> A -> Prop) (l : list A) :
  StronglySorted R l -> NoDup l ->
  StronglySorted (fun a b => R a b /\ a <> b) l.
Proof.
  induction 1 as [ | a l Hs IH Hall]; intros Hnd; [constructor | ].
  inversion Hnd as [ | ? ? Hnotin Hnd']; subst.
  constructor; [now apply IH | ].
  apply Forall_forall. intros b Hb. rewrite Forall_forall in Hall.
  split; [now apply Hall | ]. intros ->. contradiction.
Qed.

Lemma sorted_impl {A : Type} (R S : A -> A -> Prop) (l : list A) :
  (forall a b, R a b -> S a b) -> StronglySorted R l -> StronglySorted S l.
Proof.
  intros Hrs. induction 1 as [ | a l Hs IH Hall]; constructor;
    [exact IH | ].
  eapply Forall_impl; [ | exact Hall]. intros b. apply Hrs.
Qed.

Lemma df_map_nonempty (data_df : DataFrame) (y : Z) :
  df_map data_df y <> [] <-> exists r, In r data_df /\ Year r = y.
Proof.
  unfold df_map. split.
  - destruct (filter _ data_df) as [ | r l] eqn:E; [congruence | ].
    intros _. exists r.
    assert (Hin : In r (filter (fun r => Year r =? y) data_df))
      by (rewrite E; now left).
    apply filter_In in Hin. now rewrite Z.eqb_eq in Hin.
  - intros [r [Hr Hy]] Hempty.
    assert (Hin : In r (filter (fun r => Year r =? y) data_df)).
    { apply filter_In. split; [exact Hr | now apply Z.eqb_eq]. }
    rewrite Hempty in Hin. contradiction.
Qed.

Lemma max_year_spec (data_df : DataFrame) (hi : Z) :
  max_year_available data_df = Some hi ->
  In hi (map Year data_df) /\ forall y, In y (map Year data_df) -> y <= hi.
Proof.
  unfold max_year_available. destruct data_df as [ | r df]; [discriminate | ].
  cbn [map]. intros H. injection H as <-. apply fold_max_spec.
Qed.


End Strict.

(** X11. The years offered by the map selector are in strictly ascending
    order; a year is offered exactly when its map snapshot has a row; the
    latest year of the frame, the selector's preset, is offered and is
    the greatest of them. *)
Theorem map_year_options_spec (data_df : DataFrame) :
  StronglySorted Z.lt (map_year_options data_df)
  /\ (forall y, In y (map_year_options data_df) <-> df_map data_df y <> [])
  /\ (forall hi,
        max_year_available data_df = Some hi ->
        In hi (map_year_options data_df)
        /\ Forall (fun y => y <= hi) (map_year_options data_df)).
Proof.
  assert (Hin : forall y, In y (map_year_options data_df) <->
                          In y (map Year data_df)).
  { intros y. unfold map_year_options. split; intros H.
    - apply (Permutation_in _ (sorted_by_perm Z.leb _)) in H.
      exact (proj1 (unique_In Z.eqb Z.eqb_eq _ _) H).
    - apply (Permutation_in _ (Permutation_sym (sorted_by_perm Z.leb _))).
      exact (proj2 (unique_In Z.eqb Z.eqb_eq _ _) H). }
  split; [ | split].
  - unfold map_year_options.
    apply sorted_impl
      with (R := fun a b => (a <=? b) = true /\ a <> b).
    + intros a b [Hle Hne]. apply Z.leb_le in Hle. lia.
    + apply sorted_NoDup_strict.
      * apply sorted_by_sorted.
        -- intros a b H. apply Z.leb_gt in H. apply Z.leb_le. lia.
        -- intros a b c H1 H2. apply Z.leb_le in H1, H2. apply Z.leb_le. lia.
      * eapply Permutation_NoDup;
          [apply Permutation_sym, sorted_by_perm | ].
        apply (unique_from_NoDup Z.eqb Z.eqb_eq).
  - intros y. rewrite Hin, In_year. symmetry. apply df_map_nonempty.
  - intros hi Hmax. apply max_year_spec in Hmax. destruct Hmax as [H1 H2].
    split; [now apply Hin | ].
    apply Forall_forall. intros y Hy. apply H2. now apply Hin.
Qed.

Lemma map_year_options_spec_witness :
  max_year_available (growth_example "Peru" None) = Some 2005
  /\ In 2005 (map_year_options (growth_example "Peru" None)).
Proof.
  split; [reflexivity | ].
  apply (proj2 (proj2 (map_year_options_spec (growth_example "Peru" None)))).
  reflexivity.
Defined.

(** ** The options of the country selector *)

Section CountryOptions.








End CountryOptions.



(** ** The script *)

Section Script.




End Script.

(** X13. When the loader comes back with the empty frame the script
    takes its [else] branch and ends with the notice that the frame could
    not be loaded, after whatever the loader emitted: the page shows that
    notice alone when a reply with status 200 and a decodable body cleaned
    to no row, and two error notices in every other case. *)
Theorem main_no_data (py : readers) (got : get_result) :
  fst (load_data py got) = Returned [] ->
  main py got
  = (Returned NoData, snd (load_data py got) ++ [no_data_notice])
  /\ (List.length (snd (main py got)) = 1%nat <->
      exists data, got = Response 200 (Json data))
  /\ (List.length (snd (main py got)) = 2%nat <->
      forall data, got <> Response 200 (Json data)).
Proof.
  unfold main. destruct got as [e | status_code body]; simpl.
  - intros _. split; [reflexivity | split; split].
    + discriminate.
    + intros [data H]. discriminate.
    + intros _ data. discriminate.
    + reflexivity.
  - destruct (status_code =? 200) eqn:E.
    + apply Z.eqb_eq in E. subst status_code.
      destruct body as [data | e]; simpl.
      * intros ->. simpl. split; [reflexivity | split; split].
        -- eauto.
        -- reflexivity.
        -- discriminate.
        -- intros H. now elim (H data).
      * intros _. split; [reflexivity | split; split].
        -- discriminate.
        -- intros [data H]. discriminate.
        -- intros _ data. discriminate.
        -- reflexivity.
    + intros _. simpl. split; [reflexivity | split; split].
      * discriminate.
      * intros [data H]. injection H as -> _. discriminate.
      * intros _ data H. injection H as -> _. discriminate.
      * reflexivity.
Qed.

Lemma main_no_data_witness :
  fst (load_data plain_readers
         (Response 500 (NotJson "Internal Server Error")))
  = Returned []
  /\ main plain_readers (Response 500 (NotJson "Internal Server Error"))
     = (Returned NoData,
        [st_error "Error al conectar con la API: Código 500";
         no_data_notice]).
Proof.
  split; [reflexivity | ].
  apply (proj1 (main_no_data plain_readers
                  (Response 500 (NotJson "Internal Server Error"))
                  eq_refl)).
Defined.




